(** * reuse_ollama_for_ramalama: a shallow embedding and its properties

    The script [reuse_ollama_for_ramalama.py] publishes the models of a
    local Ollama store to ramalama through symbolic links.  This file
    embeds its functions over a model of Python values, of the JSON
    documents read by [json.load] and of the POSIX file tree, and proves
    the properties of the specification about them.

    Conventions.  A Python call either returns a value or raises: it is
    a [result].  A function that prints threads the printed lines as a
    [list string]; a function that changes the file tree threads the
    tree. *)

From Stdlib Require Import String Ascii List Bool ZArith Lia.
Import ListNotations.
Local Open Scope string_scope.

Set Warnings "-register-all".


(** ** Python outcomes *)

Module Py.

(** The exceptions that the script can meet. *)
Inductive exn : Type :=
| FileNotFoundError
| FileExistsError
| NotADirectoryError
| IsADirectoryError
| JSONDecodeError (msg : string)
| UnicodeDecodeError
| AttributeError
| TypeError
| IndexError.

Inductive result (A : Type) : Type :=
| Ok (a : A)
| Raise (e : exn).

Arguments Ok {A} a.
Arguments Raise {A} e.

Definition bind {A B : Type} (r : result A) (k : A -> result B) : result B :=
  match r with
  | Ok a => k a
  | Raise e => Raise e
  end.

Definition raises {A : Type} (r : result A) : Prop :=
  exists e, r = Raise e.

(** *** Strings *)

(** [s.startswith(p)] *)
Fixpoint startswith (s p : string) {struct p} : bool :=
  match p with
  | EmptyString => true
  | String c p' =>
      match s with
      | EmptyString => false
      | String d s' => Ascii.eqb c d && startswith s' p'
      end
  end.

(** [s.endswith(p)] for a one-character [p]. *)
Fixpoint endswith_char (s : string) (c : ascii) : bool :=
  match s with
  | EmptyString => false
  | String d EmptyString => Ascii.eqb d c
  | String _ s' => endswith_char s' c
  end.

(** [s.replace(old, new)] for a non-empty [old]: the occurrences of [old]
    are found from left to right, without overlap.  [skip] counts the
    characters of an occurrence that are still to be dropped. *)
Fixpoint replace_from (old new : string) (skip : nat) (s : string) : string :=
  match s with
  | EmptyString => EmptyString
  | String c s' =>
      match skip with
      | S k => replace_from old new k s'
      | O =>
          if startswith s old
          then new ++ replace_from old new (String.length old - 1) s'
          else String c (replace_from old new 0 s')
      end
  end.

(** With an empty [old], Python puts [new] before every character and at
    the end. *)
Fixpoint intersperse (new s : string) : string :=
  match s with
  | EmptyString => new
  | String c s' => new ++ String c (intersperse new s')
  end.

Definition replace (s old new : string) : string :=
  match old with
  | EmptyString => intersperse new s
  | _ => replace_from old new 0 s
  end.

(** [s.split(sep)] for a one-character separator. *)
Fixpoint split (sep : ascii) (s : string) : list string :=
  match s with
  | EmptyString => [EmptyString]
  | String c s' =>
      if Ascii.eqb c sep then EmptyString :: split sep s'
      else match split sep s' with
           | h :: t => String c h :: t
           | [] => [String c EmptyString]
           end
  end.

(** [sep.join(l)] *)
Fixpoint join (sep : string) (l : list string) : string :=
  match l with
  | [] => EmptyString
  | [x] => x
  | x :: r => x ++ sep ++ join sep r
  end.

(** [c in s] for a character. *)
Fixpoint contains (c : ascii) (s : string) : bool :=
  match s with
  | EmptyString => false
  | String d s' => Ascii.eqb d c || contains c s'
  end.

(** [l[i]], with Python's negative indices and its [IndexError]. *)
Definition index {A : Type} (l : list A) (i : Z) : result A :=
  let n := Z.of_nat (List.length l) in
  let j := if (i <? 0)%Z then (n + i)%Z else i in
  if ((0 <=? j) && (j <? n))%Z
  then match nth_error l (Z.to_nat j) with
       | Some a => Ok a
       | None => Raise IndexError
       end
  else Raise IndexError.

(** *** Lists *)

(** The first result that [f] gives along [l]. *)
Fixpoint find_map {A B : Type} (f : A -> option B) (l : list A) : option B :=
  match l with
  | [] => None
  | x :: r =>
      match f x with
      | Some y => Some y
      | None => find_map f r
      end
  end.

(** [l] with the first item that [f] changes changed, and what [f] gave
    with it. *)
Fixpoint update_first {A B : Type} (f : A -> option (A * B)) (l : list A)
  : option (list A * B) :=
  match l with
  | [] => None
  | x :: r =>
      match f x with
      | Some (x', b) => Some (x' :: r, b)
      | None =>
          match update_first f r with
          | Some (r', b) => Some (x :: r', b)
          | None => None
          end
      end
  end.

End Py.

Import Py.

Notation "x <- r ;; k" := (Py.bind r (fun x => k))
  (at level 61, r at next level, right associativity).

(** ** JSON documents, as [json.load] returns them *)

Module Json.

(** A parsed document: a Python [dict], [list], [str], number, [bool] or
    [None].  Numbers play no part in the script; integers stand for
    them. *)
Inductive value : Type :=
| Null
| Boolean (b : bool)
| Number (n : Z)
| Str (s : string)
| Array (l : list value)
| Object (m : list (string * value)).

Fixpoint assoc (key : string) (m : list (string * value)) : option value :=
  match m with
  | [] => None
  | (k, v) :: r => if String.eqb k key then Some v else assoc key r
  end.

(** [v.get(key, default)]: only a [dict] has the method. *)
Definition get (v : value) (key : string) (default : value) : result value :=
  match v with
  | Object m =>
      match assoc key m with
      | Some x => Ok x
      | None => Ok default
      end
  | _ => Raise AttributeError
  end.

(** [v == s] for a string literal [s]. *)
Definition eq_str (v : value) (s : string) : bool :=
  match v with
  | Str x => String.eqb x s
  | _ => false
  end.

Fixpoint chars (s : string) : list value :=
  match s with
  | EmptyString => []
  | String c s' => Str (String c EmptyString) :: chars s'
  end.

(** The items that [for x in v] goes through: the elements of a list,
    the keys of a dict, the characters of a string; [None], a number or
    a [bool] cannot be iterated. *)
Definition iter (v : value) : result (list value) :=
  match v with
  | Array l => Ok l
  | Object m => Ok (map (fun kv => Str (fst kv)) m)
  | Str s => Ok (chars s)
  | _ => Raise TypeError
  end.

(** [v.replace(old, new)]: only a [str] has the method. *)
Definition str_replace (v : value) (old new : string) : result string :=
  match v with
  | Str s => Ok (replace s old new)
  | _ => Raise AttributeError
  end.

End Json.

(** ** The file tree *)

Module Fs.

(** What [json.load] makes of a regular file opened as text: bytes that
    are no text in the encoding of the platform, which stops the read
    with [UnicodeDecodeError]; a text that is no JSON, with the message
    of the decoding error; or a document. *)
Inductive content : Type :=
| Undecodable
| Malformed (msg : string)
| Parsed (j : Json.value).

(** What following a path to its end finds: nothing, a regular file or a
    directory. *)
Inductive stat_result : Type :=
| NoEnt
| IsFile (c : content)
| IsDir.

(** A tree of directory entries, each directory listing its entries in
    the order in which [scandir] reports them; the names of a directory
    are distinct and hold no slash.  A symbolic link keeps the text of
    its target, which is what [readlink] returns, and what following the
    link finds, which is what [DirEntry.is_dir], [exists] and [open]
    see.  What a link leads to is recorded, not computed from the tree:
    it is given with the tree or, for a link that the script makes,
    taken when the link is made.  A run of the script keeps it exact
    unless a link leads through an entry that the run itself unlinks or
    makes. *)
Inductive node : Type :=
| File (c : content)
| Link (target : string) (dest : stat_result)
| Dir (entries : list (string * node)).

Definition entry : Type := (string * node)%type.

(** [os.path.join(a, b)] *)
Definition path_join (a b : string) : string :=
  if startswith b "/" then b
  else match a with
       | EmptyString => b
       | _ => if endswith_char a "/" then a ++ b else a ++ "/" ++ b
       end.

(** The part of a path after its last slash: [os.path.basename]. *)
Fixpoint basename (p : string) : string :=
  match p with
  | EmptyString => EmptyString
  | String c p' =>
      if contains "/" p' then basename p'
      else if Ascii.eqb c "/" then p' else p
  end.

(** The node that a path names, the tree being rooted at [cur]; the
    path of an entry is the [path_join] of its directory's and its name.
    Paths are compared as written, without resolving [..] or a link on
    the way: the script builds its paths from a walk or from normalised
    [Path]s.  The whole tree is rooted at [/], so that only an absolute
    path names a node. *)
Fixpoint lookup_from (cur : string) (n : node) (p : string) : option node :=
  if String.eqb cur p then Some n
  else match n with
       | Dir es =>
           find_map (fun e => lookup_from (path_join cur (fst e)) (snd e) p) es
       | _ => None
       end.

Definition lookup (fs : node) (p : string) : option node :=
  lookup_from "/" fs p.

(** [os.stat(p)], which follows a link. *)
Definition stat (fs : node) (p : string) : stat_result :=
  match lookup fs p with
  | None => NoEnt
  | Some (File c) => IsFile c
  | Some (Link _ d) => d
  | Some (Dir _) => IsDir
  end.

(** [os.path.exists(p)] *)
Definition exists_ (fs : node) (p : string) : bool :=
  match stat fs p with
  | NoEnt => false
  | _ => true
  end.

(** [DirEntry.is_dir()], by which [os.walk] sorts the entries of a
    directory into [dirs] and [files]: it follows links. *)
Definition is_dir (c : node) : bool :=
  match c with
  | Dir _ => true
  | Link _ IsDir => true
  | _ => false
  end.

(** [os.path.islink] *)
Definition islink (c : node) : bool :=
  match c with
  | Link _ _ => true
  | _ => false
  end.

(** The entries of [dirs] that [os.walk] goes down: it does not follow
    links. *)
Definition walked (c : node) : bool := is_dir c && negb (islink c).

Definition dirnames (es : list entry) : list string :=
  map fst (filter (fun e => is_dir (snd e)) es).

Definition filenames (es : list entry) : list string :=
  map fst (filter (fun e => negb (is_dir (snd e))) es).

(** [os.walk(top)] on the directory [n], top down: the triple of the
    directory, then the walks of its [dirs] that are not links. *)
Fixpoint walk (top : string) (n : node) : list (string * list string * list string) :=
  match n with
  | Dir es =>
      (top, dirnames es, filenames es) ::
      flat_map (fun e => if walked (snd e)
                         then walk (path_join top (fst e)) (snd e)
                         else []) es
  | _ => []
  end.

(** [os.walk] ignores the error of a [top] that cannot be listed
    ([onerror] is [None]) and then yields nothing.  The tree keeps no
    entries behind a link: a walk that starts at a link is not
    modelled and yields nothing either. *)
Definition os_walk (fs : node) (top : string) : list (string * list string * list string) :=
  match lookup fs top with
  | Some n => walk top n
  | None => []
  end.

(** The entries that a walk lists among [files], each with its path. *)
Fixpoint walk_files (top : string) (n : node) : list (string * node) :=
  match n with
  | Dir es =>
      (map (fun e => (path_join top (fst e), snd e))
           (filter (fun e => negb (is_dir (snd e))) es) ++
       flat_map (fun e => if walked (snd e)
                          then walk_files (path_join top (fst e)) (snd e)
                          else []) es)%list
  | _ => []
  end.

Definition os_walk_files (fs : node) (top : string) : list (string * node) :=
  match lookup fs top with
  | Some n => walk_files top n
  | None => []
  end.

(** [f] applied to the first node that passes [test], with what it
    prints; [None] when no node does. *)
Fixpoint update_where (test : string -> node -> bool) (f : node -> node * list string)
    (cur : string) (n : node) : option (node * list string) :=
  if test cur n then Some (f n)
  else match n with
       | Dir es =>
           match
             update_first
               (fun e =>
                  match update_where test f (path_join cur (fst e)) (snd e) with
                  | Some (c', out) => Some ((fst e, c'), out)
                  | None => None
                  end) es
           with
           | Some (es', out) => Some (Dir es', out)
           | None => None
           end
       | _ => None
       end.

(** [f] applied to the node that [p] names. *)
Definition update_at (f : node -> node * list string) (p : string) (fs : node)
  : option (node * list string) :=
  update_where (fun cur _ => String.eqb cur p) f "/" fs.

(** The directory of path [cur] is the one in which [dst] names an
    entry. *)
Definition parent_of (dst : string) (cur : string) (n : node) : bool :=
  match n with
  | Dir _ => String.eqb (path_join cur (basename dst)) dst
  | _ => false
  end.

Definition add_entry (name : string) (x : node) (n : node) : node * list string :=
  match n with
  | Dir es => (Dir (es ++ [(name, x)])%list, [])
  | _ => (n, [])
  end.

(** A regular file, or a link that leads to one, is on the way to [p]:
    [p] goes on with a slash after the path of that entry.  The system
    then answers [ENOTDIR], which Python raises as
    [NotADirectoryError], where it answers [ENOENT] for a path that
    merely names nothing. *)
Fixpoint not_a_directory_from (cur : string) (n : node) (p : string) : bool :=
  match n with
  | File _ => startswith p (cur ++ "/")
  | Link _ (IsFile _) => startswith p (cur ++ "/")
  | Link _ _ => false
  | Dir es =>
      existsb (fun e => not_a_directory_from (path_join cur (fst e)) (snd e) p) es
  end.

Definition not_a_directory (fs : node) (p : string) : bool :=
  not_a_directory_from "/" fs p.

(** [os.symlink(src, dst)]: [dst] must be free and its directory
    present; a regular file on the way to [dst] gives
    [NotADirectoryError].  The tree has no permissions: the errors of
    a directory that cannot be written are not modelled. *)
Definition symlink (fs : node) (src dst : string) : result node :=
  match lookup fs dst with
  | Some _ => Raise FileExistsError
  | None =>
      match basename dst with
      | EmptyString => Raise FileNotFoundError
      | name =>
          match update_where (parent_of dst)
                  (add_entry name (Link src (stat fs src))) "/" fs with
          | Some (fs', _) => Ok fs'
          | None =>
              if not_a_directory fs dst then Raise NotADirectoryError
              else Raise FileNotFoundError
          end
      end
  end.

(** [open(p)] followed by [json.load]: [open] fails on a path that
    names nothing, with [NotADirectoryError] when a regular file is on
    the way, and on a directory; [json.load] fails on bytes that are no
    text and on a text that is no JSON. *)
Definition json_load (fs : node) (p : string) : result Json.value :=
  match stat fs p with
  | NoEnt =>
      if not_a_directory fs p then Raise NotADirectoryError
      else Raise FileNotFoundError
  | IsDir => Raise IsADirectoryError
  | IsFile Undecodable => Raise UnicodeDecodeError
  | IsFile (Malformed msg) => Raise (JSONDecodeError msg)
  | IsFile (Parsed j) => Ok j
  end.

End Fs.

(** ** [pathlib.Path], on POSIX *)

Module Pathlib.

(** A path is its root ([/], [//] or none) and its components; the
    constructor drops empty components and [.] ones. *)
Record Path : Type := mkPath { root : string; parts : list string }.

Definition is_part (c : string) : bool :=
  negb (String.eqb c EmptyString) && negb (String.eqb c ".").

(** [Path(s)] *)
Definition of_string (s : string) : Path :=
  {| root := if startswith s "//" && negb (startswith s "///") then "//"
             else if startswith s "/" then "/"
             else EmptyString;
     parts := filter is_part (split "/" s) |}.

(** [Path(x)] for what a function returned: [None] is not accepted. *)
Definition of_value (x : option string) : result Path :=
  match x with
  | Some s => Ok (of_string s)
  | None => Raise TypeError
  end.

(** [str(p)] *)
Definition str (p : Path) : string :=
  match root p, parts p with
  | EmptyString, [] => "."
  | r, ps => r ++ join "/" ps
  end.

(** [a / b] *)
Definition div (a b : Path) : Path :=
  match root b with
  | EmptyString => {| root := root a; parts := (parts a ++ parts b)%list |}
  | _ => b
  end.

End Pathlib.

(** ** The script *)

Module Script.

Import Fs Pathlib.

Section Home.

(** [os.environ['HOME']] *)
Variable HOME : string.

Definition home : Path := of_string HOME.
Definition OLLAMA_MODELS_DIR : Path := div home (of_string ".ollama/models").
Definition OLLAMA_MANIFESTS_DIR : Path :=
  div OLLAMA_MODELS_DIR (of_string "manifests/registry.ollama.ai").
Definition OLLAMA_BLOBS_DIR : Path := div OLLAMA_MODELS_DIR (of_string "blobs").
Definition RAMALAMA_DIR : Path :=
  div home (of_string ".local/share/ramalama/models/ollama").

End Home.

(** [get_filenames(folder)]: the paths of the [files] of every triple of
    the walk. *)
Definition get_filenames (fs : node) (folder : string) : result (list string) :=
  Ok (flat_map (fun t : string * list string * list string =>
                  let '(root, _, files) := t in
                  map (fun file => path_join root file) files)
               (os_walk fs folder)).

(** [get_model_name(filename)] *)
Definition get_model_name (filename : string) : result string :=
  let parts := split "/" filename in
  a <- index parts (-2) ;;
  b <- index parts (-1) ;;
  Ok (a ++ ":" ++ b).

Definition MODEL_MEDIA_TYPE : string := "application/vnd.ollama.image.model".

(** The loop of [get_model_blob] over the layers: the digest of the
    first layer of the model media type, or nothing. *)
Fixpoint scan_layers (layers : list Json.value) : result (option string) :=
  match layers with
  | [] => Ok None
  | layer :: rest =>
      mt <- Json.get layer "mediaType" Json.Null ;;
      if Json.eq_str mt MODEL_MEDIA_TYPE
      then
        d <- Json.get layer "digest" (Json.Str EmptyString) ;;
        s <- Json.str_replace d "sha256:" "sha256-" ;;
        Ok (Some s)
      else scan_layers rest
  end.

(** The body of the [try] of [get_model_blob]. *)
Definition get_model_blob_try (fs : node) (model_path : string) : result (option string) :=
  data <- json_load fs model_path ;;
  layers <- Json.get data "layers" (Json.Array []) ;;
  items <- Json.iter layers ;;
  scan_layers items.

(** [get_model_blob(model_path)], with the lines it prints.  The two
    [except] clauses turn a missing file and a decoding error into
    [None]; any other exception leaves the function. *)
Definition get_model_blob (fs : node) (model_path : string)
  : list string * result (option string) :=
  match get_model_blob_try fs model_path with
  | Ok (Some blob) => ([], Ok (Some blob))
  | Ok None => (["No matching layer found."], Ok None)
  | Raise FileNotFoundError =>
      (["File not found at path: " ++ model_path], Ok None)
  | Raise (JSONDecodeError msg) =>
      (["JSON decode error in file: " ++ msg], Ok None)
  | Raise e => ([], Raise e)
  end.

(** [create_symlink(src, target)]: both [except] clauses raise again
    what they caught. *)
Definition create_symlink (fs : node) (src target : string) : node * result bool :=
  if negb (exists_ fs src) then (fs, Raise FileNotFoundError)
  else match symlink fs src target with
       | Ok fs' => (fs', Ok true)
       | Raise e => (fs, Raise e)
       end.

(** The test of [reset_symlinks] on one of the [files]: the line it
    prints when it unlinks the entry. *)
Definition reset_entry (blobs_dir path : string) (c : node) : option string :=
  match c with
  | Link source _ =>
      if startswith source blobs_dir
      then Some ("Delete symlink " ++ path ++ " to Ollama model " ++ source)
      else None
  | _ => None
  end.

(** The loops of [reset_symlinks] on the directory [n]: [os.walk] lists
    the directory, the inner loop goes through its [files] and unlinks
    those that the test picks, then the walk goes down the [dirs] that
    are not links.  The result is the directory after the walk and the
    lines printed. *)
Fixpoint reset_walk (blobs_dir : string) (top : string) (n : node) : node * list string :=
  match n with
  | Dir es =>
      let printed_here :=
        flat_map (fun e =>
                    if is_dir (snd e) then []
                    else match reset_entry blobs_dir (path_join top (fst e)) (snd e) with
                         | Some line => [line]
                         | None => []
                         end) es in
      let printed_below :=
        flat_map (fun e =>
                    if walked (snd e)
                    then snd (reset_walk blobs_dir (path_join top (fst e)) (snd e))
                    else []) es in
      let es' :=
        flat_map (fun e =>
                    if is_dir (snd e) then
                      if walked (snd e)
                      then [(fst e, fst (reset_walk blobs_dir (path_join top (fst e)) (snd e)))]
                      else [e]
                    else match reset_entry blobs_dir (path_join top (fst e)) (snd e) with
                         | Some _ => []
                         | None => [e]
                         end) es in
      (Dir es', (printed_here ++ printed_below)%list)
  | _ => (n, [])
  end.

(** [reset_symlinks(directory, blobs_dir)] *)
Definition reset_symlinks (fs : node) (directory blobs_dir : Path) : node * list string :=
  match update_at (reset_walk (str blobs_dir) (str directory)) (str directory) fs with
  | Some r => r
  | None => (fs, [])
  end.

Section Main.

Variable HOME : string.

(** One turn of the loop of the main program over the manifests. *)
Definition sync_file (fs : node) (file : string) : node * list string * result unit :=
  match get_model_name file with
  | Raise e => (fs, [], Raise e)
  | Ok name =>
      let target := div (RAMALAMA_DIR HOME) (of_string name) in
      let (out, blob) := get_model_blob fs file in
      match blob <- blob ;; of_value blob with
      | Raise e => (fs, out, Raise e)
      | Ok blob_path =>
          let src := div (OLLAMA_BLOBS_DIR HOME) blob_path in
          match create_symlink fs (str src) (str target) with
          | (fs', Ok true) =>
              let line :=
                "Model " ++ str target ++ " symlinked to existing blob " ++ str src in
              (fs', (out ++ [line])%list, Ok tt)
          | (fs', Ok false) => (fs', out, Ok tt)
          | (fs', Raise e) => (fs', out, Raise e)
          end
      end
  end.

(** The loop: an exception ends it. *)
Fixpoint sync_loop (fs : node) (files : list string) : node * list string * result unit :=
  match files with
  | [] => (fs, [], Ok tt)
  | file :: rest =>
      match sync_file fs file with
      | (fs1, out1, Ok _) =>
          let '(fs2, out2, r) := sync_loop fs1 rest in
          (fs2, (out1 ++ out2)%list, r)
      | (fs1, out1, Raise e) => (fs1, out1, Raise e)
      end
  end.

(** The main program, [reset] being the flag [--reset]: the tree and the
    lines printed at the end, and whether the run ended on an
    exception. *)
Definition main (reset : bool) (fs : node) : node * list string * result unit :=
  let (fs1, out1) := reset_symlinks fs (RAMALAMA_DIR HOME) (OLLAMA_BLOBS_DIR HOME) in
  if reset then (fs1, out1, Ok tt)
  else
    match get_filenames fs1 (str (OLLAMA_MANIFESTS_DIR HOME)) with
    | Raise e => (fs1, out1, Raise e)
    | Ok files =>
        let '(fs2, out2, r) := sync_loop fs1 files in
        (fs2, (out1 ++ out2)%list, r)
    end.

End Main.

End Script.

Import Fs Pathlib Script.

(** ** Vocabulary of the properties *)

(** A layer descriptor that [get_model_blob] passes over: an object
    whose media type, if it has one, is not the model's. *)
Definition other_layer (v : Json.value) : bool :=
  match v with
  | Json.Object m =>
      match Json.assoc "mediaType" m with
      | Some mt => negb (Json.eq_str mt MODEL_MEDIA_TYPE)
      | None => true
      end
  | _ => false
  end.

(** The entries of the directory that [p] names: [os.listdir(p)] with
    the nodes. *)
Definition listdir (fs : node) (p : string) : list entry :=
  match lookup fs p with
  | Some (Dir es) => es
  | _ => []
  end.

(** An entry that [reset_symlinks] unlinks when it meets it among the
    [files] of a walk: a link whose target, as written, starts with the
    path of the blob store. *)
Definition points_into (blobs_dir : string) (c : node) : bool :=
  match c with
  | Link source _ => startswith source blobs_dir
  | _ => false
  end.

(** A node without the entries under it: the content of a file, the
    target of a link and what it leads to, or the fact of being a
    directory. *)
Definition shallow (n : node) : node :=
  match n with
  | Dir _ => Dir []
  | _ => n
  end.

(** What a path names, the entries under a directory apart. *)
Definition entry_at (fs : node) (p : string) : option node :=
  option_map shallow (lookup fs p).

(** A link whose target, as written, starts with the path of the blob
    store is what [p] names. *)
Definition link_into (blobs_dir : string) (fs : node) (p : string) : Prop :=
  exists source dest,
    lookup fs p = Some (Link source dest) /\ startswith source blobs_dir = true.

(** The number of entries of a tree, at any depth. *)
Fixpoint entries (n : node) : nat :=
  match n with
  | Dir es => list_sum (map (fun e => S (entries (snd e))) es)
  | _ => 0
  end.

(** [found top n p c]: the entry [c] of path [p] is in the directory
    [n] of path [top], or in a directory under it, links apart. *)
Inductive found : string -> node -> string -> node -> Prop :=
| found_here top es name c :
    In (name, c) es ->
    found top (Dir es) (path_join top name) c
| found_below top es name es' p c :
    In (name, Dir es') es ->
    found (path_join top name) (Dir es') p c ->
    found top (Dir es) p c.

(** ** Sample file trees *)

Module Sample.

Definition HOME : string := "/home/u".
Definition manifests_dir : string := str (OLLAMA_MANIFESTS_DIR HOME).
Definition blobs_dir : string := str (OLLAMA_BLOBS_DIR HOME).
Definition ramalama_dir : string := str (RAMALAMA_DIR HOME).

Definition layer (media_type digest : string) : Json.value :=
  Json.Object [("mediaType", Json.Str media_type);
               ("digest", Json.Str digest);
               ("size", Json.Number 42)].

Definition manifest (layers : list Json.value) : node :=
  File (Parsed (Json.Object [("schemaVersion", Json.Number 2);
                             ("layers", Json.Array layers)])).

(** A blob is no JSON text. *)
Definition blob_content : content := Malformed "Expecting value: line 1 column 1 (char 0)".

(** The home of [u] with the manifests of the library, the blobs and
    the entries of the ramalama directory. *)
Definition tree (manifests blobs links : list entry) : node :=
  Dir [("home", Dir [("u", Dir [
    (".ollama", Dir [("models", Dir [
       ("manifests", Dir [("registry.ollama.ai", Dir [("library", Dir manifests)])]);
       ("blobs", Dir blobs)])]);
    (".local", Dir [("share", Dir [("ramalama", Dir [("models", Dir [
       ("ollama", Dir links)])])])])])])].

Definition template_layer : Json.value :=
  layer "application/vnd.ollama.image.template" "sha256:0f0f0f".

(** A well-formed manifest and its blob. *)
Definition llama3 : entry :=
  ("llama3", Dir [("latest",
     manifest [template_layer; layer MODEL_MEDIA_TYPE "sha256:abc123"])]).
Definition llama3_manifest : string :=
  "/home/u/.ollama/models/manifests/registry.ollama.ai/library/llama3/latest".
Definition llama3_blob : entry := ("sha256-abc123", File blob_content).

(** A manifest without a layer of the model media type. *)
Definition adapter : entry :=
  ("adapter", Dir [("v1", manifest [template_layer])]).
Definition adapter_manifest : string :=
  "/home/u/.ollama/models/manifests/registry.ollama.ai/library/adapter/v1".

(** A manifest whose model layer has no digest. *)
Definition draft : entry :=
  ("draft", Dir [("v0", manifest
     [Json.Object [("mediaType", Json.Str MODEL_MEDIA_TYPE)]])]).
Definition draft_manifest : string :=
  "/home/u/.ollama/models/manifests/registry.ollama.ai/library/draft/v0".



Definition fs_llama3 : node := tree [llama3] [llama3_blob] [].
Definition fs_adapter_then_llama3 : node := tree [adapter; llama3] [llama3_blob] [].
Definition fs_draft_then_llama3 : node := tree [draft; llama3] [llama3_blob] [].
Definition fs_draft : node := tree [draft] [llama3_blob] [].

(** A second well-formed manifest and its blob. *)
Definition phi : entry :=
  ("phi", Dir [("mini", manifest [layer MODEL_MEDIA_TYPE "sha256:def456"])]).
Definition phi_manifest : string :=
  "/home/u/.ollama/models/manifests/registry.ollama.ai/library/phi/mini".
Definition phi_blob : entry := ("sha256-def456", File blob_content).

(** The blob of [llama3] is missing, that of [phi] is there. *)
Definition fs_llama3_without_blob : node := tree [llama3; phi] [phi_blob] [].

(** A home without an Ollama store. *)
Definition fs_without_ollama : node := Dir [("home", Dir [("u", Dir [])])].

(** Entries of a ramalama directory: a link to a blob, a link to the
    blob store itself, a link that leads elsewhere and a regular
    file. *)
Definition link_to_blob : entry :=
  ("llama3:latest",
   Link "/home/u/.ollama/models/blobs/sha256-abc123" (IsFile blob_content)).
Definition link_to_store : entry :=
  ("draft:v0", Link "/home/u/.ollama/models/blobs" IsDir).
Definition link_elsewhere : entry :=
  ("mistral:7b", Link "/srv/models/mistral.gguf" (IsFile blob_content)).
Definition notes : entry := ("README", File (Malformed "Expecting value"%string)).

Definition fs_two_links : node :=
  tree [] [llama3_blob] [link_to_blob; link_elsewhere; notes].
Definition fs_link_to_store : node :=
  tree [] [llama3_blob] [link_to_store].

End Sample.

(** * Properties *)

(** ** Strings and lists *)

Lemma split_not_nil (sep : ascii) (s : string) : split sep s <> [].
Proof.
  destruct s as [|c s]; simpl; [discriminate|].
  destruct (Ascii.eqb c sep); [discriminate|].
  destruct (split sep s); discriminate.
Qed.

Lemma split_without_sep (sep : ascii) (s : string) :
  contains sep s = false -> split sep s = [s].
Proof.
  induction s as [|c s IH]; simpl; intros H; [reflexivity|].
  apply orb_false_iff in H as [Hc Hs].
  rewrite Hc, (IH Hs). reflexivity.
Qed.

Lemma split_app_sep (sep : ascii) (a b : string) :
  split sep (a ++ String sep b) = (split sep a ++ split sep b)%list.
Proof.
  induction a as [|c a IH]; simpl.
  - now rewrite Ascii.eqb_refl.
  - destruct (Ascii.eqb c sep); rewrite IH; [reflexivity|].
    destruct (split sep a) as [|h t] eqn:E; [|reflexivity].
    now apply split_not_nil in E.
Qed.

Lemma index_last_but_one (A : Type) (l : list A) (a b : A) :
  index (l ++ [a; b]) (-2) = Ok a.
Proof.
  unfold index. rewrite length_app. simpl List.length.
  replace (-2 <? 0)%Z with true by reflexivity.
  replace (Z.of_nat (List.length l + 2) + -2)%Z with (Z.of_nat (List.length l)) by lia.
  replace ((0 <=? Z.of_nat (List.length l)) &&
           (Z.of_nat (List.length l) <? Z.of_nat (List.length l + 2)))%Z
    with true by (symmetry; apply andb_true_iff; split;
                  [apply Z.leb_le | apply Z.ltb_lt]; lia).
  rewrite Nat2Z.id, nth_error_app2, Nat.sub_diag by lia. reflexivity.
Qed.

Lemma index_last (A : Type) (l : list A) (a b : A) :
  index (l ++ [a; b]) (-1) = Ok b.
Proof.
  unfold index. rewrite length_app. simpl List.length.
  replace (-1 <? 0)%Z with true by reflexivity.
  replace (Z.of_nat (List.length l + 2) + -1)%Z with (Z.of_nat (List.length l + 1)) by lia.
  replace ((0 <=? Z.of_nat (List.length l + 1)) &&
           (Z.of_nat (List.length l + 1) <? Z.of_nat (List.length l + 2)))%Z
    with true by (symmetry; apply andb_true_iff; split;
                  [apply Z.leb_le | apply Z.ltb_lt]; lia).
  rewrite Nat2Z.id, nth_error_app2 by lia.
  replace (List.length l + 1 - List.length l) with 1 by lia. reflexivity.
Qed.

(** ** The name of a model *)

Lemma get_model_name_of_parts (l : list string) (name tag : string) :
  forall filename, split "/" filename = (l ++ [name; tag])%list ->
  get_model_name filename = Ok (name ++ ":" ++ tag).
Proof.
  intros filename E. unfold get_model_name. rewrite E.
  rewrite index_last_but_one, index_last. reflexivity.
Qed.

(** C6. For a manifest path of the shape [<name>/<tag>], alone or after
    any prefix [.../], where neither [<name>] nor [<tag>] holds a slash,
    [get_model_name] returns [<name>:<tag>], the last two segments of
    the path joined by a colon. *)
Theorem get_model_name_last_two_segments (dir name tag : string) :
  contains "/" name = false ->
  contains "/" tag = false ->
  get_model_name (name ++ "/" ++ tag) = Ok (name ++ ":" ++ tag) /\
  get_model_name (dir ++ "/" ++ name ++ "/" ++ tag) = Ok (name ++ ":" ++ tag).
Proof.
  intros Hn Ht. split.
  - apply (get_model_name_of_parts []). simpl app.
    change (name ++ "/" ++ tag) with (name ++ String "/" tag).
    now rewrite split_app_sep, (split_without_sep _ _ Hn), (split_without_sep _ _ Ht).
  - apply (get_model_name_of_parts (split "/" dir)).
    change (dir ++ "/" ++ name ++ "/" ++ tag)
      with (dir ++ String "/" (name ++ String "/" tag)).
    now rewrite !split_app_sep, (split_without_sep _ _ Hn), (split_without_sep _ _ Ht).
Qed.

Lemma get_model_name_last_two_segments_witness :
  get_model_name "llama3/latest" = Ok "llama3:latest" /\
  get_model_name "/m/registry.ollama.ai/library/llama3/latest" = Ok "llama3:latest".
Proof.
  apply (get_model_name_last_two_segments
           "/m/registry.ollama.ai/library" "llama3" "latest");
    reflexivity.
Defined.

Lemma startswith_contains (c : ascii) (p s : string) :
  startswith s p = true -> contains c p = true -> contains c s = true.
Proof.
  revert s. induction p as [|d p IH]; simpl; intros s Hs Hc; [discriminate|].
  destruct s as [|e s]; [discriminate|].
  apply andb_true_iff in Hs as [Hde Hs].
  apply Ascii.eqb_eq in Hde. subst e. simpl.
  apply orb_true_iff in Hc as [Hc|Hc].
  - now rewrite Hc.
  - rewrite (IH s Hs Hc). apply orb_true_r.
Qed.

Lemma replace_from_absent (c : ascii) (old new s : string) :
  contains c old = true -> contains c s = false ->
  replace_from old new 0 s = s.
Proof.
  intros Hold. induction s as [|d s IH]; intros Hs; [reflexivity|].
  cbn [replace_from].
  destruct (startswith (String d s) old) eqn:E.
  - now rewrite (startswith_contains c old (String d s) E Hold) in Hs.
  - simpl in Hs. apply orb_false_iff in Hs as [_ Hs]. now rewrite IH.
Qed.

Lemma replace_sha256_prefix (hex : string) :
  contains ":" hex = false ->
  replace ("sha256:" ++ hex) "sha256:" "sha256-" = "sha256-" ++ hex.
Proof.
  intros H. unfold replace. cbn. do 7 f_equal.
  now apply replace_from_absent with (c := ":"%char).
Qed.

(** ** The blob of a model *)

Lemma scan_layers_skip (before : list Json.value) (rest : list Json.value) :
  forallb other_layer before = true ->
  scan_layers (before ++ rest) = scan_layers rest.
Proof.
  induction before as [|v before IH]; simpl; intros H; [reflexivity|].
  apply andb_true_iff in H as [Hv H].
  destruct v as [| | | | |m]; try discriminate. simpl in *.
  destruct (Json.assoc "mediaType" m) as [mt|]; simpl.
  - apply negb_true_iff in Hv. rewrite Hv. now apply IH.
  - now apply IH.
Qed.

Lemma scan_layers_model (m : list (string * Json.value)) (after : list Json.value) :
  Json.assoc "mediaType" m = Some (Json.Str MODEL_MEDIA_TYPE) ->
  scan_layers (Json.Object m :: after) =
    (d <- Json.get (Json.Object m) "digest" (Json.Str EmptyString) ;;
     s <- Json.str_replace d "sha256:" "sha256-" ;;
     Ok (Some s)).
Proof.
  intros H. cbn [scan_layers Json.get]. rewrite H. reflexivity.
Qed.

Lemma get_model_blob_try_layers (fs : node) (model_path : string)
    (doc : list (string * Json.value)) (layers : list Json.value) :
  stat fs model_path = IsFile (Parsed (Json.Object doc)) ->
  Json.assoc "layers" doc = Some (Json.Array layers) ->
  get_model_blob_try fs model_path = scan_layers layers.
Proof.
  intros Hs Hl. unfold get_model_blob_try, json_load. rewrite Hs.
  cbn [bind Json.get]. rewrite Hl. reflexivity.
Qed.

(** C7. For a manifest whose JSON holds a sequence of layers,
    [get_model_blob] goes through the layers in order and, at the first
    one whose media type is the model's, returns its digest with every
    [sha256:] replaced by [sha256-]: for a digest [sha256:<hex>] this
    rewrites the scheme prefix, and the digest [sha256:abc123] gives
    [sha256-abc123].  Nothing is printed. *)
Theorem get_model_blob_first_model_layer (fs : node) (model_path : string)
    (doc m : list (string * Json.value)) (before after : list Json.value)
    (digest : string) :
  stat fs model_path = IsFile (Parsed (Json.Object doc)) ->
  Json.assoc "layers" doc = Some (Json.Array (before ++ Json.Object m :: after)) ->
  forallb other_layer before = true ->
  Json.assoc "mediaType" m = Some (Json.Str MODEL_MEDIA_TYPE) ->
  Json.assoc "digest" m = Some (Json.Str digest) ->
  get_model_blob fs model_path =
    ([], Ok (Some (replace digest "sha256:" "sha256-"))) /\
  (forall hex, digest = "sha256:" ++ hex -> contains ":" hex = false ->
     get_model_blob fs model_path = ([], Ok (Some ("sha256-" ++ hex)))) /\
  (digest = "sha256:abc123" ->
     get_model_blob fs model_path = ([], Ok (Some "sha256-abc123"))).
Proof.
  intros Hs Hl Hb Hm Hd.
  assert (E : get_model_blob fs model_path =
              ([], Ok (Some (replace digest "sha256:" "sha256-")))).
  { unfold get_model_blob.
    rewrite (get_model_blob_try_layers _ _ _ _ Hs Hl), (scan_layers_skip _ _ Hb).
    rewrite (scan_layers_model _ after Hm).
    cbn [Json.get]. rewrite Hd. reflexivity. }
  split; [exact E|]. split.
  - intros hex -> Hhex. rewrite E. now rewrite replace_sha256_prefix.
  - intros ->. exact E.
Qed.



Lemma get_model_blob_first_model_layer_witness :
  get_model_blob Sample.fs_llama3 Sample.llama3_manifest =
    ([], Ok (Some "sha256-abc123")).
Proof.
  refine (proj2 (proj2 (get_model_blob_first_model_layer
    Sample.fs_llama3 Sample.llama3_manifest
    [("schemaVersion", Json.Number 2);
     ("layers", Json.Array [Sample.template_layer;
                            Sample.layer MODEL_MEDIA_TYPE "sha256:abc123"])]
    [("mediaType", Json.Str MODEL_MEDIA_TYPE);
     ("digest", Json.Str "sha256:abc123");
     ("size", Json.Number 42)]
    [Sample.template_layer] [] "sha256:abc123" _ _ _ _ _)) _);
    reflexivity.
Defined.


(** ** The main loop *)

(** A manifest without a layer of the model media type: a line is
    printed and [None] returned. *)
Lemma get_model_blob_no_model_layer (fs : node) (model_path : string)
    (doc : list (string * Json.value)) (layers : list Json.value) :
  stat fs model_path = IsFile (Parsed (Json.Object doc)) ->
  Json.assoc "layers" doc = Some (Json.Array layers) ->
  forallb other_layer layers = true ->
  get_model_blob fs model_path = (["No matching layer found."], Ok None).
Proof.
  intros Hs Hl Hb. unfold get_model_blob.
  rewrite (get_model_blob_try_layers _ _ _ _ Hs Hl).
  rewrite <- (app_nil_r layers), (scan_layers_skip _ _ Hb). reflexivity.
Qed.

(** The turn of the loop for such a manifest makes no link and raises
    [TypeError]: [Path] does not accept [None]. *)
Lemma sync_file_without_blob (HOME : string) (fs : node) (file name : string)
    (out : list string) :
  get_model_name file = Ok name ->
  get_model_blob fs file = (out, Ok None) ->
  sync_file HOME fs file = (fs, out, Raise TypeError).
Proof. intros Hn Hb. unfold sync_file. now rewrite Hn, Hb. Qed.

(** C1. A manifest without a layer of the model media type makes
    [get_model_blob] print a line and return [None], and no link is made
    for it; but the loop does not go on to the next manifest: [Path(None)]
    raises [TypeError], which ends the run before the manifest of
    [llama3], which is well formed and has its blob, is looked at. *)
Theorem main_stops_at_manifest_without_model_layer :
  get_filenames Sample.fs_adapter_then_llama3 Sample.manifests_dir =
    Ok [Sample.adapter_manifest; Sample.llama3_manifest] /\
  get_model_blob Sample.fs_adapter_then_llama3 Sample.adapter_manifest =
    (["No matching layer found."], Ok None) /\
  main Sample.HOME false Sample.fs_adapter_then_llama3 =
    (Sample.fs_adapter_then_llama3, ["No matching layer found."], Raise TypeError) /\
  listdir Sample.fs_adapter_then_llama3 Sample.ramalama_dir = [] /\
  (let '(fs, _, r) := main Sample.HOME false Sample.fs_llama3 in
   r = Ok tt /\ listdir fs Sample.ramalama_dir = [Sample.link_to_blob]).
Proof. vm_compute. repeat split; reflexivity. Qed.

(** C2. With the manifest of [draft], whose model layer has no digest,
    before that of [llama3], a first run links [draft:v0] to the blob
    store and [llama3:latest] to its blob.  The reset of a second run
    leaves the first link, which the walk lists among the directories,
    so that the second run fails on it with [FileExistsError] and ends
    without the link of [llama3:latest]: the two runs do not leave the
    same links. *)
Theorem main_twice_differs_from_once :
  let '(fs1, _, r1) := main Sample.HOME false Sample.fs_draft_then_llama3 in
  let '(fs2, _, r2) := main Sample.HOME false fs1 in
  r1 = Ok tt /\
  listdir fs1 Sample.ramalama_dir = [Sample.link_to_store; Sample.link_to_blob] /\
  r2 = Raise FileExistsError /\
  listdir fs2 Sample.ramalama_dir = [Sample.link_to_store].
Proof. vm_compute. repeat split; reflexivity. Qed.

(** ** Trees *)

(** Induction on a tree, the entries of a directory all satisfying the
    property. *)
Lemma node_induction (P : node -> Prop) :
  (forall c, P (File c)) ->
  (forall target dest, P (Link target dest)) ->
  (forall es, Forall (fun e => P (snd e)) es -> P (Dir es)) ->
  forall n, P n.
Proof.
  intros HF HL HD. fix IH 1. intros [c|target dest|es].
  - apply HF.
  - apply HL.
  - apply HD. induction es as [|[name c] es IHes]; constructor.
    + apply IH.
    + exact IHes.
Qed.

Lemma find_map_app (A B : Type) (f : A -> option B) (l1 l2 : list A) :
  find_map f (l1 ++ l2) =
    match find_map f l1 with
    | Some y => Some y
    | None => find_map f l2
    end.
Proof.
  induction l1 as [|x l1 IH]; simpl; [reflexivity|].
  destruct (f x); [reflexivity|exact IH].
Qed.

Lemma lookup_from_dir (cur p : string) (es : list entry) :
  String.eqb cur p = false ->
  lookup_from cur (Dir es) p =
    find_map (fun e => lookup_from (path_join cur (fst e)) (snd e) p) es.
Proof. intros H. cbn [lookup_from]. now rewrite H. Qed.

Lemma lookup_from_none_neq (cur p : string) (n : node) :
  lookup_from cur n p = None -> String.eqb cur p = false.
Proof.
  destruct n; cbn [lookup_from]; destruct (String.eqb cur p); congruence.
Qed.

(** What [update_at] does, by what [lookup] finds. *)
Lemma update_where_path (f : node -> node * list string) (p : string) (n : node) :
  forall cur,
  match lookup_from cur n p with
  | Some n0 =>
      exists n', update_where (fun c _ => String.eqb c p) f cur n = Some (n', snd (f n0)) /\
                 lookup_from cur n' p = Some (fst (f n0)) /\
                 (fst (f n0) = n0 -> n' = n)
  | None => update_where (fun c _ => String.eqb c p) f cur n = None
  end.
Proof.
  induction n as [c|target dest|es IH] using node_induction; intros cur.
  - cbn [lookup_from update_where]. destruct (String.eqb cur p) eqn:E; [|reflexivity].
    exists (fst (f (File c))). repeat split.
    + now destruct (f (File c)).
    + destruct (fst (f (File c))); cbn [lookup_from]; now rewrite E.
    + auto.
  - cbn [lookup_from update_where]. destruct (String.eqb cur p) eqn:E; [|reflexivity].
    exists (fst (f (Link target dest))). repeat split.
    + now destruct (f (Link target dest)).
    + destruct (fst (f (Link target dest))); cbn [lookup_from]; now rewrite E.
    + auto.
  - cbn [lookup_from update_where]. destruct (String.eqb cur p) eqn:E.
    { exists (fst (f (Dir es))). repeat split.
      + now destruct (f (Dir es)).
      + destruct (fst (f (Dir es))); cbn [lookup_from]; now rewrite E.
      + auto. }
    induction IH as [|[name c] es Hc _ IHes]; cbn [find_map update_first fst snd];
      [reflexivity|].
    specialize (Hc (path_join cur name)). cbn [snd] in Hc.
    destruct (lookup_from (path_join cur name) c p) as [n0|] eqn:Ec.
    + destruct Hc as (c' & -> & Hl & Hfix).
      exists (Dir ((name, c') :: es)). repeat split.
      * cbn [lookup_from find_map fst snd]. now rewrite E, Hl.
      * intros H. now rewrite (Hfix H).
    + rewrite Hc.
      destruct (find_map (fun e => lookup_from (path_join cur (fst e)) (snd e) p) es)
        as [n0|].
      * destruct IHes as (n' & Hu & Hl & Hfix).
        destruct (update_first _ es) as [[es' out]|]; [|discriminate].
        injection Hu as <- <-.
        exists (Dir ((name, c) :: es')). repeat split.
        -- rewrite lookup_from_dir in Hl by exact E.
           cbn [lookup_from find_map fst snd].
           now rewrite E, Ec.
        -- intros H. specialize (Hfix H). now injection Hfix as ->.
      * destruct (update_first _ es) as [[es' out]|]; [discriminate IHes|reflexivity].
Qed.

(** ** Reset *)

Lemma reset_entry_points_into (blobs_dir path : string) (c : node) :
  reset_entry blobs_dir path c = None <-> points_into blobs_dir c = false.
Proof.
  destruct c as [x|source d|es]; simpl; try tauto.
  destruct (startswith source blobs_dir); split; congruence.
Qed.

Lemma reset_walk_walked (blobs_dir top : string) (c : node) :
  walked c = true ->
  walked (fst (reset_walk blobs_dir top c)) = true /\
  is_dir (fst (reset_walk blobs_dir top c)) = true.
Proof.
  destruct c as [x|source d|es]; [discriminate| |now split].
  unfold walked. simpl. rewrite andb_false_r. discriminate.
Qed.

(** The files that a walk lists after the loops of [reset_symlinks] are
    those that it listed before, without the links into the blob
    store. *)
Lemma reset_walk_files (blobs_dir : string) (n : node) :
  forall top,
  walk_files top (fst (reset_walk blobs_dir top n)) =
    filter (fun pc => negb (points_into blobs_dir (snd pc))) (walk_files top n).
Proof.
  induction n as [c|target dest|es IH] using node_induction; intros top;
    [reflexivity|reflexivity|].
  cbn [reset_walk fst walk_files]. rewrite filter_app. f_equal.
  - clear IH. induction es as [|[name c] es IHes]; [reflexivity|].
    cbn [flat_map fst snd]. rewrite filter_app, map_app, IHes. clear IHes.
    cbn [filter fst snd].
    destruct (is_dir c) eqn:Ed; cbn [negb].
    + destruct (walked c) eqn:Ew; cbn [filter snd app].
      * destruct (reset_walk_walked blobs_dir (path_join top name) c Ew) as [_ ->].
        reflexivity.
      * now rewrite Ed.
    + destruct (reset_entry blobs_dir (path_join top name) c) as [line|] eqn:Er;
        cbn [map filter fst snd app].
      * destruct (points_into blobs_dir c) eqn:Ep; [reflexivity|].
        apply reset_entry_points_into with (path := path_join top name) in Ep.
        congruence.
      * rewrite Ed. cbn [negb map fst snd app].
        apply reset_entry_points_into in Er. now rewrite Er.
  - induction IH as [|[name c] es Hc _ IHes]; [reflexivity|].
    cbn [flat_map fst snd]. rewrite flat_map_app, filter_app, IHes. f_equal.
    specialize (Hc (path_join top name)). cbn [snd] in Hc.
    destruct (walked c) eqn:Ew.
    + assert (Ed : is_dir c = true) by (unfold walked in Ew; now apply andb_true_iff in Ew).
      rewrite Ed. cbn [flat_map fst snd].
      destruct (reset_walk_walked blobs_dir (path_join top name) c Ew) as [-> _].
      now rewrite app_nil_r.
    + destruct (is_dir c); cbn [flat_map fst snd].
      * now rewrite Ew.
      * destruct (reset_entry blobs_dir (path_join top name) c);
          cbn [flat_map fst snd]; [reflexivity|now rewrite Ew].
Qed.

(** When a walk lists no link into the blob store among its files, the
    loops of [reset_symlinks] unlink nothing and print nothing. *)
Lemma reset_walk_nothing (blobs_dir : string) (n : node) :
  forall top,
  forallb (fun pc => negb (points_into blobs_dir (snd pc))) (walk_files top n) = true ->
  reset_walk blobs_dir top n = (n, []).
Proof.
  induction n as [c|target dest|es IH] using node_induction; intros top H;
    [reflexivity|reflexivity|].
  cbn [walk_files] in H. rewrite forallb_app in H.
  apply andb_true_iff in H as [Hhere Hbelow].
  cbn [reset_walk].
  assert (E : flat_map (fun e : string * node =>
                if is_dir (snd e) then []
                else match reset_entry blobs_dir (path_join top (fst e)) (snd e) with
                     | Some line => [line]
                     | None => []
                     end) es = [] /\
              flat_map (fun e : string * node =>
                if walked (snd e)
                then snd (reset_walk blobs_dir (path_join top (fst e)) (snd e))
                else []) es = [] /\
              flat_map (fun e : string * node =>
                if is_dir (snd e) then
                  if walked (snd e)
                  then [(fst e, fst (reset_walk blobs_dir (path_join top (fst e)) (snd e)))]
                  else [e]
                else match reset_entry blobs_dir (path_join top (fst e)) (snd e) with
                     | Some _ => []
                     | None => [e]
                     end) es = es).
  { induction IH as [|[name c] es Hc _ IHes]; [now repeat split|].
    cbn [flat_map fst snd filter map] in *.
    rewrite forallb_app in Hbelow. apply andb_true_iff in Hbelow as [Hc' Hbelow].
    assert (Hhere' : forallb (fun pc => negb (points_into blobs_dir (snd pc)))
                       (map (fun e : string * node => (path_join top (fst e), snd e))
                          (filter (fun e : string * node => negb (is_dir (snd e))) es)) = true).
    { destruct (negb (is_dir c)); [|exact Hhere].
      cbn [map forallb] in Hhere. now apply andb_true_iff in Hhere. }
    destruct (IHes Hhere' Hbelow) as (-> & -> & ->). clear IHes.
    destruct (walked c) eqn:Ew.
    - assert (Ed : is_dir c = true) by (unfold walked in Ew; now apply andb_true_iff in Ew).
      rewrite Ed. rewrite (Hc _ Hc'). now repeat split.
    - destruct (is_dir c) eqn:Ed; [now repeat split|].
      cbn [negb map forallb fst snd] in Hhere.
      apply andb_true_iff in Hhere as [Hp _]. apply negb_true_iff in Hp.
      apply reset_entry_points_into with (path := path_join top name) in Hp.
      rewrite Hp. now repeat split. }
  destruct E as (-> & -> & ->). reflexivity.
Qed.

Lemma forallb_filter_same (A : Type) (f : A -> bool) (l : list A) :
  forallb f (filter f l) = true.
Proof.
  induction l as [|x l IH]; [reflexivity|]. simpl.
  destruct (f x) eqn:E; [|exact IH]. simpl. now rewrite E.
Qed.

(** What [reset_symlinks] does to the directory that it is given. *)
Lemma reset_symlinks_lookup (fs : node) (directory blobs_dir : Path) :
  match lookup fs (str directory) with
  | Some n =>
      lookup (fst (reset_symlinks fs directory blobs_dir)) (str directory) =
        Some (fst (reset_walk (str blobs_dir) (str directory) n)) /\
      snd (reset_symlinks fs directory blobs_dir) =
        snd (reset_walk (str blobs_dir) (str directory) n) /\
      (fst (reset_walk (str blobs_dir) (str directory) n) = n ->
       fst (reset_symlinks fs directory blobs_dir) = fs)
  | None => reset_symlinks fs directory blobs_dir = (fs, [])
  end.
Proof.
  unfold reset_symlinks, update_at, lookup.
  pose proof (update_where_path
                (reset_walk (str blobs_dir) (str directory)) (str directory) fs "/") as H.
  destruct (lookup_from "/" fs (str directory)) as [n|].
  - destruct H as (n' & -> & Hl & Hfix). now repeat split.
  - now rewrite H.
Qed.

Lemma os_walk_files_reset (fs : node) (directory blobs_dir : Path) :
  os_walk_files (fst (reset_symlinks fs directory blobs_dir)) (str directory) =
    filter (fun pc => negb (points_into (str blobs_dir) (snd pc)))
           (os_walk_files fs (str directory)).
Proof.
  pose proof (reset_symlinks_lookup fs directory blobs_dir) as H.
  unfold os_walk_files at 2.
  destruct (lookup fs (str directory)) as [n|] eqn:E.
  - destruct H as (Hl & _ & _). unfold os_walk_files. rewrite Hl.
    apply reset_walk_files.
  - rewrite H. unfold os_walk_files. cbn [fst]. now rewrite E.
Qed.

(** X18. A second reset is the identity: after a reset, the walk of the
    target directory lists among its files no link whose target starts
    with the path of the blob store, so that a reset run again unlinks
    nothing, prints nothing and leaves the tree as it is. *)
Theorem reset_symlinks_twice (fs : node) (directory blobs_dir : Path) :
  let fs1 := fst (reset_symlinks fs directory blobs_dir) in
  forallb (fun pc => negb (points_into (str blobs_dir) (snd pc)))
          (os_walk_files fs1 (str directory)) = true /\
  reset_symlinks fs1 directory blobs_dir = (fs1, []).
Proof.
  cbv zeta. split.
  - rewrite os_walk_files_reset. apply forallb_filter_same.
  - pose proof (reset_symlinks_lookup fs directory blobs_dir) as H.
    destruct (lookup fs (str directory)) as [n|] eqn:E.
    + destruct H as (Hl & _ & _).
      pose proof (reset_symlinks_lookup
                    (fst (reset_symlinks fs directory blobs_dir))
                    directory blobs_dir) as H1.
      rewrite Hl in H1. destruct H1 as (_ & Hout & Hfix).
      assert (Hn : reset_walk (str blobs_dir) (str directory)
                     (fst (reset_walk (str blobs_dir) (str directory) n)) =
                   (fst (reset_walk (str blobs_dir) (str directory) n), [])).
      { apply reset_walk_nothing. rewrite reset_walk_files.
        apply forallb_filter_same. }
      rewrite Hn in Hout, Hfix. cbn [fst snd] in Hout, Hfix.
      destruct (reset_symlinks (fst (reset_symlinks fs directory blobs_dir))
                  directory blobs_dir) as [fs2 out2].
      cbn [fst snd] in Hout, Hfix. now rewrite Hout, Hfix.
    + rewrite H. cbn [fst]. exact H.
Qed.

(** C3. The target directory holds one entry, the link [draft:v0] whose
    target is the path of the blob store, a directory.  It is a link
    whose target starts with the path of the blob store, which the
    reset is to unlink; but the walk lists it among the directories,
    the loop over the files never tests it, and the reset returns with
    the tree as it was, having printed nothing. *)
Lemma reset_symlinks_keeps_link_to_directory :
  In Sample.link_to_store (listdir Sample.fs_link_to_store Sample.ramalama_dir) /\
  (exists source dest,
     snd Sample.link_to_store = Link source dest /\
     startswith source (str (OLLAMA_BLOBS_DIR Sample.HOME)) = true) /\
  reset_symlinks Sample.fs_link_to_store
    (RAMALAMA_DIR Sample.HOME) (OLLAMA_BLOBS_DIR Sample.HOME) =
    (Sample.fs_link_to_store, []).
Proof.
  split; [vm_compute; now left|]. split; [|reflexivity].
  exists "/home/u/.ollama/models/blobs", IsDir. split; reflexivity.
Qed.

(** C4. On the same tree, the target directory still holds after a
    first reset a link whose target starts with the path of the blob
    store: the second reset unlinks nothing, but not because no such
    link is left. *)
Lemma reset_symlinks_leaves_link_into_store :
  let fs1 := fst (reset_symlinks Sample.fs_link_to_store
                    (RAMALAMA_DIR Sample.HOME) (OLLAMA_BLOBS_DIR Sample.HOME)) in
  listdir fs1 Sample.ramalama_dir = [Sample.link_to_store] /\
  (exists name source dest,
     In (name, Link source dest) (listdir fs1 Sample.ramalama_dir) /\
     startswith source (str (OLLAMA_BLOBS_DIR Sample.HOME)) = true) /\
  reset_symlinks fs1 (RAMALAMA_DIR Sample.HOME) (OLLAMA_BLOBS_DIR Sample.HOME) =
    (fs1, []).
Proof.
  cbv zeta. split; [reflexivity|]. split; [|reflexivity].
  exists "draft:v0", "/home/u/.ollama/models/blobs", IsDir.
  split; [vm_compute; now left|reflexivity].
Qed.

(** ** The manifests *)

Lemma walk_filenames (n : node) :
  forall top,
  flat_map (fun t : string * list string * list string =>
              let '(root, _, files) := t in
              map (fun file => path_join root file) files) (walk top n) =
    map fst (walk_files top n).
Proof.
  induction n as [c|target dest|es IH] using node_induction; intros top;
    [reflexivity|reflexivity|].
  cbn [walk walk_files flat_map]. rewrite map_app. f_equal.
  - unfold filenames. now rewrite !map_map.
  - induction IH as [|[name c] es Hc _ IHes]; [reflexivity|].
    cbn [flat_map fst snd]. rewrite flat_map_app, map_app, IHes. f_equal.
    destruct (walked c); [apply Hc|reflexivity].
Qed.

Lemma found_walk_files (top : string) (n : node) (p : string) (c : node) :
  found top n p c -> is_dir c = false -> In (p, c) (walk_files top n).
Proof.
  induction 1 as [top es name c Hin|top es name es' p c Hin _ IH]; intros Hc;
    cbn [walk_files]; apply in_or_app.
  - left. apply in_map_iff. exists (name, c). split; [reflexivity|].
    apply filter_In. cbn [snd]. now rewrite Hc.
  - right. apply in_flat_map. exists (name, Dir es'). split; [exact Hin|].
    cbn [walked is_dir islink andb negb fst snd]. now apply IH.
Qed.

(** C9 (amended). When the root of the manifests names nothing,
    [get_filenames] raises nothing and returns the empty list; for a
    root that is there, it returns the path of every regular file found
    in the directory or in a directory under it, whatever the name of
    the file. *)
Theorem get_filenames_every_file (fs : node) (folder : string) :
  (lookup fs folder = None -> get_filenames fs folder = Ok []) /\
  (forall n p c,
     lookup fs folder = Some n -> found folder n p (File c) ->
     exists names, get_filenames fs folder = Ok names /\ In p names).
Proof.
  unfold get_filenames, os_walk. split.
  - now intros ->.
  - intros n p c -> Hf. eexists. split; [reflexivity|].
    rewrite walk_filenames. apply in_map_iff. exists (p, File c).
    split; [reflexivity|]. now apply found_walk_files.
Qed.

Lemma get_filenames_every_file_witness :
  get_filenames Sample.fs_without_ollama Sample.manifests_dir = Ok [] /\
  exists names,
    get_filenames Sample.fs_llama3 Sample.manifests_dir = Ok names /\
    In Sample.llama3_manifest names.
Proof.
  split.
  - apply (proj1 (get_filenames_every_file
                    Sample.fs_without_ollama Sample.manifests_dir)).
    reflexivity.
  - apply (proj2 (get_filenames_every_file Sample.fs_llama3 Sample.manifests_dir)
             (Dir [("library", Dir [Sample.llama3])])
             Sample.llama3_manifest
             (Parsed (Json.Object
                [("schemaVersion", Json.Number 2);
                 ("layers", Json.Array [Sample.template_layer;
                                        Sample.layer MODEL_MEDIA_TYPE "sha256:abc123"])]))).
    + reflexivity.
    + apply found_below with (name := "library") (es' := [Sample.llama3]);
        [now left|].
      apply found_below with (name := "llama3")
        (es' := [("latest", Sample.manifest
                   [Sample.template_layer;
                    Sample.layer MODEL_MEDIA_TYPE "sha256:abc123"])]);
        [now left|].
      apply (found_here
               "/home/u/.ollama/models/manifests/registry.ollama.ai/library/llama3"
               _ "latest").
      now left.
Defined.

(** C9, as it is stated, fails for a root that is missing: the walk
    yields nothing and [get_filenames] returns the empty list, raising
    nothing. *)
Lemma get_filenames_missing_root_returns :
  lookup Sample.fs_without_ollama Sample.manifests_dir = None /\
  get_filenames Sample.fs_without_ollama Sample.manifests_dir = Ok [] /\
  ~ raises (get_filenames Sample.fs_without_ollama Sample.manifests_dir).
Proof.
  split; [reflexivity|]. split; [reflexivity|].
  intros [e H]. discriminate H.
Qed.

(** ** Links *)

Lemma sync_loop_app (HOME : string) (done rest : list string) :
  forall fs,
  sync_loop HOME fs (done ++ rest) =
    match sync_loop HOME fs done with
    | (fs1, out1, Ok _) =>
        let '(fs2, out2, r) := sync_loop HOME fs1 rest in
        (fs2, (out1 ++ out2)%list, r)
    | (fs1, out1, Raise e) => (fs1, out1, Raise e)
    end.
Proof.
  induction done as [|file done IH]; intros fs; cbn [sync_loop app].
  - now destruct (sync_loop HOME fs rest) as [[fs2 out2] r].
  - destruct (sync_file HOME fs file) as [[fs1 out1] [[]|e]]; [|reflexivity].
    rewrite IH.
    destruct (sync_loop HOME fs1 done) as [[fs2 out2] [[]|e]]; [|reflexivity].
    destruct (sync_loop HOME fs2 rest) as [[fs3 out3] r].
    now rewrite app_assoc.
Qed.

Lemma create_symlink_missing_source (fs : node) (src target : string) :
  exists_ fs src = false ->
  create_symlink fs src target = (fs, Raise FileNotFoundError).
Proof. intros H. unfold create_symlink. now rewrite H. Qed.

(** C5. When the source does not exist, [create_symlink] raises
    [FileNotFoundError] and leaves the tree as it is: no link is made,
    not even a broken one.  Nothing in the main program catches the
    exception: when the loop has gone through the manifests [done] and
    the blob of the next one is missing, the run ends there with
    [FileNotFoundError], whatever manifests are left. *)
Theorem missing_source_ends_run (HOME : string) (fs0 fs : node)
    (done rest : list string) (out0 out : list string) (file name blob : string) :
  sync_loop HOME fs0 done = (fs, out0, Ok tt) ->
  get_model_name file = Ok name ->
  get_model_blob fs file = (out, Ok (Some blob)) ->
  exists_ fs (str (div (OLLAMA_BLOBS_DIR HOME) (of_string blob))) = false ->
  (forall src target, exists_ fs src = false ->
     create_symlink fs src target = (fs, Raise FileNotFoundError)) /\
  sync_loop HOME fs0 (done ++ file :: rest) =
    (fs, (out0 ++ out)%list, Raise FileNotFoundError) /\
  (forall fs_start out_reset,
     reset_symlinks fs_start (RAMALAMA_DIR HOME) (OLLAMA_BLOBS_DIR HOME) =
       (fs0, out_reset) ->
     get_filenames fs0 (str (OLLAMA_MANIFESTS_DIR HOME)) = Ok (done ++ file :: rest)%list ->
     main HOME false fs_start =
       (fs, (out_reset ++ out0 ++ out)%list, Raise FileNotFoundError)).
Proof.
  intros Hdone Hname Hblob Hsrc.
  assert (Hloop : sync_loop HOME fs0 (done ++ file :: rest) =
                  (fs, (out0 ++ out)%list, Raise FileNotFoundError)).
  { rewrite sync_loop_app, Hdone. cbn [sync_loop].
    unfold sync_file. rewrite Hname, Hblob. cbn [bind of_value].
    now rewrite (create_symlink_missing_source _ _ _ Hsrc). }
  split; [intros src target; apply create_symlink_missing_source|].
  split; [exact Hloop|].
  intros fs_start out_reset Hreset Hfiles.
  unfold main. now rewrite Hreset, Hfiles, Hloop.
Qed.

Lemma missing_source_ends_run_witness :
  sync_loop Sample.HOME Sample.fs_llama3_without_blob
    [Sample.llama3_manifest; Sample.phi_manifest] =
    (Sample.fs_llama3_without_blob, [], Raise FileNotFoundError) /\
  main Sample.HOME false Sample.fs_llama3_without_blob =
    (Sample.fs_llama3_without_blob, [], Raise FileNotFoundError).
Proof.
  pose proof (missing_source_ends_run Sample.HOME
                Sample.fs_llama3_without_blob Sample.fs_llama3_without_blob
                [] [Sample.phi_manifest] [] []
                Sample.llama3_manifest "llama3:latest" "sha256-abc123"
                eq_refl eq_refl eq_refl eq_refl) as (_ & Hloop & Hmain).
  split; [exact Hloop|].
  exact (Hmain Sample.fs_llama3_without_blob [] eq_refl eq_refl).
Defined.

Lemma lookup_from_here (cur p : string) (n : node) :
  String.eqb cur p = true -> lookup_from cur n p = Some n.
Proof. intros H. destruct n; cbn [lookup_from]; now rewrite H. Qed.

(** The entry that [symlink] adds is the one that its path names
    afterwards. *)
Lemma add_entry_lookup (dst : string) (x : node) (n : node) :
  forall cur n' out,
  lookup_from cur n dst = None ->
  update_where (parent_of dst) (add_entry (basename dst) x) cur n = Some (n', out) ->
  lookup_from cur n' dst = Some x.
Proof.
  induction n as [c|target dest|es IH] using node_induction;
    intros cur n' out Hnone Hup; [discriminate Hup|discriminate Hup|].
  pose proof (lookup_from_none_neq _ _ _ Hnone) as E.
  rewrite lookup_from_dir in Hnone by exact E.
  cbn [update_where parent_of] in Hup.
  destruct (String.eqb (path_join cur (basename dst)) dst) eqn:Et.
  - cbn [add_entry] in Hup. injection Hup as <- _.
    rewrite lookup_from_dir, find_map_app, Hnone by exact E.
    cbn [find_map fst snd]. now rewrite (lookup_from_here _ _ x Et).
  - destruct (update_first _ es) as [[es' out']|] eqn:Eu; [|discriminate Hup].
    injection Hup as <- _. rewrite lookup_from_dir by exact E.
    clear E Et. revert es' out' Eu Hnone.
    induction IH as [|[name c] es Hc _ IHes]; intros es' out' Eu Hnone;
      [discriminate Eu|].
    cbn [update_first find_map fst snd] in *.
    destruct (lookup_from (path_join cur name) c dst) eqn:Ec; [discriminate Hnone|].
    destruct (update_where (parent_of dst) (add_entry (basename dst) x)
                (path_join cur name) c) as [[c' outc]|] eqn:Euc.
    + injection Eu as <- _. cbn [find_map fst snd].
      now rewrite (Hc _ _ _ Ec Euc).
    + destruct (update_first _ es) as [[r' outr]|] eqn:Er; [|discriminate Eu].
      injection Eu as <- _. cbn [find_map fst snd]. rewrite Ec.
      now apply (IHes r' outr).
Qed.

Lemma symlink_lookup (fs fs' : node) (src dst : string) :
  symlink fs src dst = Ok fs' ->
  lookup fs' dst = Some (Link src (stat fs src)).
Proof.
  unfold symlink, lookup. intros H.
  destruct (lookup_from "/" fs dst) eqn:El; [discriminate H|].
  destruct (basename dst) as [|b name] eqn:Eb; [discriminate H|].
  rewrite <- Eb in H.
  destruct (update_where (parent_of dst)
              (add_entry (basename dst) (Link src (stat fs src))) "/" fs)
    as [[n' out]|] eqn:Eu; [|destruct (not_a_directory fs dst); discriminate H].
  injection H as <-. exact (add_entry_lookup _ _ _ _ _ _ El Eu).
Qed.

Lemma div_empty (p : Path) : div p (of_string EmptyString) = p.
Proof. destruct p as [r ps]. unfold div. cbn. now rewrite app_nil_r. Qed.

(** *** The path of a link *)

Lemma append_assoc (a b c : string) : (a ++ b) ++ c = a ++ b ++ c.
Proof. induction a as [|x a IH]; simpl; [reflexivity|now rewrite IH]. Qed.

Lemma contains_app (c : ascii) (a b : string) :
  contains c (a ++ b) = contains c a || contains c b.
Proof.
  induction a as [|x a IH]; simpl; [reflexivity|].
  now rewrite IH, orb_assoc.
Qed.

Lemma split_parts_without_sep (sep : ascii) (s x : string) :
  In x (split sep s) -> contains sep x = false.
Proof.
  revert x. induction s as [|c s IH]; simpl; intros x Hx.
  - destruct Hx as [<-|[]]. reflexivity.
  - destruct (Ascii.eqb c sep) eqn:E.
    + destruct Hx as [<-|Hx]; [reflexivity|now apply IH].
    + destruct (split sep s) as [|h t].
      * destruct Hx as [<-|[]]. simpl. now rewrite E.
      * destruct Hx as [<-|Hx].
        -- simpl. rewrite E. apply IH. now left.
        -- apply IH. now right.
Qed.

Lemma index_In (A : Type) (l : list A) (i : Z) (a : A) :
  index l i = Ok a -> In a l.
Proof.
  unfold index.
  destruct ((0 <=? _) && _)%Z; [|discriminate].
  destruct (nth_error l _) eqn:E; [|discriminate].
  intros [= <-]. eapply nth_error_In, E.
Qed.

(** The name that [get_model_name] returns is a single component of a
    path: it holds a colon and no slash. *)
Lemma get_model_name_component (filename name : string) :
  get_model_name filename = Ok name ->
  contains "/" name = false /\ contains ":" name = true.
Proof.
  unfold get_model_name.
  destruct (index (split "/" filename) (-2)) as [a|] eqn:Ea; [|discriminate].
  destruct (index (split "/" filename) (-1)) as [b|] eqn:Eb; [|discriminate].
  cbn [bind]. intros [= <-].
  apply index_In, split_parts_without_sep in Ea, Eb.
  rewrite !contains_app, Ea. cbn. rewrite Eb. split; [reflexivity|].
  apply orb_true_r.
Qed.

Lemma of_string_component (name : string) :
  contains "/" name = false -> contains ":" name = true ->
  of_string name = {| root := EmptyString; parts := [name] |}.
Proof.
  intros Hs Hc. unfold of_string. rewrite (split_without_sep _ _ Hs).
  destruct name as [|c name]; [discriminate Hc|].
  cbn in Hs. apply orb_false_iff in Hs as [Hs _].
  cbn [startswith]. rewrite Ascii.eqb_sym, Hs. cbn [andb filter].
  replace (is_part (String c name)) with true; [reflexivity|].
  unfold is_part. cbn [String.eqb negb andb].
  destruct (Ascii.eqb c ".") eqn:Ec; [|reflexivity].
  destruct name; [|reflexivity].
  apply Ascii.eqb_eq in Ec. subst c. discriminate Hc.
Qed.

Lemma join_snoc (sep : string) (l : list string) (x : string) :
  l <> [] -> join sep (l ++ [x]) = join sep l ++ sep ++ x.
Proof.
  induction l as [|y l IH]; [congruence|]. intros _.
  destruct l as [|z l]; [reflexivity|].
  change (join sep ((y :: z :: l) ++ [x]))
    with (y ++ sep ++ join sep ((z :: l) ++ [x])).
  rewrite IH by discriminate.
  change (join sep (y :: z :: l)) with (y ++ sep ++ join sep (z :: l)).
  now rewrite !append_assoc.
Qed.

Lemma str_parts (r : string) (ps : list string) :
  ps <> [] -> str {| root := r; parts := ps |} = r ++ join "/" ps.
Proof.
  intros H. unfold str. cbn [root parts].
  destruct r; [|reflexivity]. destruct ps; [congruence|reflexivity].
Qed.

Lemma endswith_char_app (s t : string) (c : ascii) :
  t <> EmptyString -> endswith_char (s ++ t) c = endswith_char t c.
Proof.
  intros Ht. induction s as [|d s IH]; [reflexivity|].
  cbn [append endswith_char]. rewrite IH.
  destruct (s ++ t) eqn:E; [|reflexivity].
  destruct s; [cbn in E; congruence|discriminate E].
Qed.

Lemma basename_app (s name : string) :
  contains "/" name = false -> basename (s ++ String "/" name) = name.
Proof.
  intros Hn. induction s as [|c s IH]; cbn [append basename].
  - now rewrite Hn.
  - rewrite contains_app. cbn [contains]. rewrite Ascii.eqb_refl.
    cbn [orb]. now rewrite orb_true_r.
Qed.

Lemma RAMALAMA_DIR_parts (HOME : string) :
  RAMALAMA_DIR HOME =
    {| root := root (home HOME);
       parts := (parts (home HOME) ++
                 [".local"; "share"; "ramalama"; "models"; "ollama"])%list |}.
Proof. reflexivity. Qed.

(** The path of the link of a model is that of an entry of the target
    directory. *)
Lemma target_path (HOME name : string) :
  contains "/" name = false -> contains ":" name = true ->
  basename (str (div (RAMALAMA_DIR HOME) (of_string name))) = name /\
  path_join (str (RAMALAMA_DIR HOME)) name =
    str (div (RAMALAMA_DIR HOME) (of_string name)).
Proof.
  intros Hs Hc. rewrite (of_string_component _ Hs Hc), RAMALAMA_DIR_parts.
  unfold div. cbn [root parts].
  set (r := root (home HOME)).
  set (ps := (parts (home HOME) ++ [".local"; "share"; "ramalama"; "models"])%list).
  replace (parts (home HOME) ++ [".local"; "share"; "ramalama"; "models"; "ollama"])%list
    with (ps ++ ["ollama"])%list by (subst ps; now rewrite <- app_assoc).
  assert (Hps : ps <> []) by (subst ps; now destruct (parts (home HOME))).
  assert (Hps' : (ps ++ ["ollama"])%list <> []) by now destruct ps.
  rewrite !str_parts by (try exact Hps'; now destruct ps).
  rewrite (join_snoc _ _ name Hps'), <- append_assoc. split.
  - now apply (basename_app (r ++ join "/" (ps ++ ["ollama"]))).
  - unfold path_join.
    destruct name as [|c name]; [discriminate Hc|].
    cbn in Hs. apply orb_false_iff in Hs as [Hs _].
    cbn [startswith]. rewrite Ascii.eqb_sym, Hs. cbn [andb].
    rewrite (join_snoc _ _ "ollama" Hps), <- !append_assoc.
    rewrite endswith_char_app by discriminate.
    replace (endswith_char "ollama" "/") with false by reflexivity.
    destruct (((r ++ join "/" ps) ++ "/") ++ "ollama") eqn:E; [|reflexivity].
    destruct ((r ++ join "/" ps) ++ "/"); discriminate E.
Qed.

(** [symlink] finds the directory of [dst] when [lookup] does. *)
Lemma update_where_parent (dst : string) (f : node -> node * list string)
    (p : string) (es : list entry) (n : node) :
  parent_of dst p (Dir es) = true ->
  forall cur,
  lookup_from cur n p = Some (Dir es) ->
  update_where (parent_of dst) f cur n <> None.
Proof.
  intros Hp.
  induction n as [c|target dest|es0 IH] using node_induction; intros cur Hl.
  - cbn [lookup_from] in Hl. destruct (String.eqb cur p); discriminate Hl.
  - cbn [lookup_from] in Hl. destruct (String.eqb cur p); discriminate Hl.
  - cbn [update_where].
    destruct (parent_of dst cur (Dir es0)) eqn:Et; [discriminate|].
    cbn [lookup_from] in Hl. destruct (String.eqb cur p) eqn:E.
    { apply String.eqb_eq in E. subst cur.
      cbn [parent_of] in Et, Hp. congruence. }
    assert (H : update_first
                  (fun e : string * node =>
                     match update_where (parent_of dst) f (path_join cur (fst e)) (snd e) with
                     | Some (c', out) => Some ((fst e, c'), out)
                     | None => None
                     end) es0 <> None).
    { clear Et E. induction IH as [|[name c] es0 Hc _ IHes]; [discriminate Hl|].
      cbn [find_map update_first fst snd] in *.
      destruct (lookup_from (path_join cur name) c p) eqn:Ec.
      - injection Hl as ->. specialize (Hc _ Ec).
        destruct (update_where (parent_of dst) f (path_join cur name) c) as [[c' out]|];
          [discriminate|congruence].
      - destruct (update_where (parent_of dst) f (path_join cur name) c) as [[c' out]|];
          [discriminate|].
        specialize (IHes Hl).
        destruct (update_first _ es0) as [[r' out]|]; [discriminate|congruence]. }
    destruct (update_first _ es0) as [[es' out]|]; [discriminate|congruence].
Qed.

(** [os.symlink] makes the link of a model when its name is free and the
    target directory is there. *)
Lemma symlink_model (HOME : string) (fs : node) (src name : string) (es : list entry) :
  contains "/" name = false -> contains ":" name = true ->
  lookup fs (str (RAMALAMA_DIR HOME)) = Some (Dir es) ->
  lookup fs (str (div (RAMALAMA_DIR HOME) (of_string name))) = None ->
  exists fs', symlink fs src (str (div (RAMALAMA_DIR HOME) (of_string name))) = Ok fs'.
Proof.
  intros Hs Hc Hdir Hfree.
  destruct (target_path HOME name Hs Hc) as [Hb Hj].
  unfold symlink. rewrite Hfree, Hb.
  destruct name as [|c name]; [discriminate Hc|].
  pose proof (update_where_parent
                (str (div (RAMALAMA_DIR HOME) (of_string (String c name))))
                (add_entry (String c name) (Link src (stat fs src)))
                (str (RAMALAMA_DIR HOME)) es fs) as H.
  destruct (update_where _ _ "/" fs) as [[fs' out]|] eqn:Eu.
  - now exists fs'.
  - exfalso. apply (H ltac:(cbn [parent_of]; rewrite Hb, Hj; apply String.eqb_refl)
                      "/" Hdir Eu).
Qed.

(** C10. When the first layer of the model media type has no digest,
    [get_model_blob] returns the empty string, not [None]; the source of
    the link is then the blob store itself and, the store being there,
    the loop makes under the name of the model, when that name is free
    in the target directory, a link that points at the blob store. *)
Theorem missing_digest_links_blob_store (HOME : string) (fs : node) (file : string)
    (doc m : list (string * Json.value)) (before after : list Json.value) :
  stat fs file = IsFile (Parsed (Json.Object doc)) ->
  Json.assoc "layers" doc = Some (Json.Array (before ++ Json.Object m :: after)) ->
  forallb other_layer before = true ->
  Json.assoc "mediaType" m = Some (Json.Str MODEL_MEDIA_TYPE) ->
  Json.assoc "digest" m = None ->
  get_model_blob fs file = ([], Ok (Some EmptyString)) /\
  div (OLLAMA_BLOBS_DIR HOME) (of_string EmptyString) = OLLAMA_BLOBS_DIR HOME /\
  (forall name es,
     get_model_name file = Ok name ->
     stat fs (str (OLLAMA_BLOBS_DIR HOME)) = IsDir ->
     lookup fs (str (RAMALAMA_DIR HOME)) = Some (Dir es) ->
     lookup fs (str (div (RAMALAMA_DIR HOME) (of_string name))) = None ->
     exists fs',
       sync_file HOME fs file =
         (fs',
          ["Model " ++ str (div (RAMALAMA_DIR HOME) (of_string name)) ++
           " symlinked to existing blob " ++ str (OLLAMA_BLOBS_DIR HOME)],
          Ok tt) /\
       lookup fs' (str (div (RAMALAMA_DIR HOME) (of_string name))) =
         Some (Link (str (OLLAMA_BLOBS_DIR HOME)) IsDir)).
Proof.
  intros Hs Hl Hb Hm Hd.
  assert (E : get_model_blob fs file = ([], Ok (Some EmptyString))).
  { unfold get_model_blob.
    rewrite (get_model_blob_try_layers _ _ _ _ Hs Hl), (scan_layers_skip _ _ Hb).
    rewrite (scan_layers_model _ after Hm).
    cbn [Json.get]. rewrite Hd. reflexivity. }
  split; [exact E|]. split; [apply div_empty|].
  intros name es Hname Hstore Hdir Hfree.
  destruct (get_model_name_component _ _ Hname) as [Hslash Hcolon].
  destruct (symlink_model HOME fs (str (OLLAMA_BLOBS_DIR HOME)) name es
              Hslash Hcolon Hdir Hfree) as [fs' Hsym].
  exists fs'. split.
  - unfold sync_file. rewrite Hname, E. cbn [bind of_value].
    rewrite div_empty. unfold create_symlink, exists_.
    rewrite Hstore, Hsym. reflexivity.
  - rewrite (symlink_lookup _ _ _ _ Hsym). now rewrite Hstore.
Qed.

Lemma missing_digest_links_blob_store_witness :
  get_model_blob Sample.fs_draft Sample.draft_manifest = ([], Ok (Some EmptyString)) /\
  exists fs',
    sync_file Sample.HOME Sample.fs_draft Sample.draft_manifest =
      (fs',
       ["Model /home/u/.local/share/ramalama/models/ollama/draft:v0 symlinked to existing blob /home/u/.ollama/models/blobs"],
       Ok tt) /\
    lookup fs' "/home/u/.local/share/ramalama/models/ollama/draft:v0" =
      Some (Link "/home/u/.ollama/models/blobs" IsDir).
Proof.
  pose proof (missing_digest_links_blob_store Sample.HOME Sample.fs_draft
                Sample.draft_manifest
                [("schemaVersion", Json.Number 2);
                 ("layers", Json.Array
                    [Json.Object [("mediaType", Json.Str MODEL_MEDIA_TYPE)]])]
                [("mediaType", Json.Str MODEL_MEDIA_TYPE)] [] []
                eq_refl eq_refl eq_refl eq_refl eq_refl) as (Hblob & _ & Hlink).
  split; [exact Hblob|].
  exact (Hlink "draft:v0" [] eq_refl eq_refl eq_refl eq_refl).
Defined.

(** * Further properties *)

(** ** Names *)

Lemma split_length (sep : ascii) (s : string) :
  contains sep s = true -> 2 <= List.length (split sep s).
Proof.
  induction s as [|c s IH]; simpl; [discriminate|].
  destruct (Ascii.eqb c sep) eqn:E; simpl.
  - intros _. pose proof (split_not_nil sep s).
    destruct (split sep s); [congruence|simpl; lia].
  - intros H. specialize (IH H).
    destruct (split sep s); simpl in *; lia.
Qed.

Lemma last_two (A : Type) (l : list A) :
  2 <= List.length l -> exists l0 a b, l = (l0 ++ [a; b])%list.
Proof.
  induction l as [|x l IH]; simpl; [lia|]. intros H.
  destruct l as [|y l]; [simpl in H; lia|].
  destruct l as [|z l].
  - now exists [], x, y.
  - destruct IH as (l0 & a & b & E); [simpl; lia|].
    exists (x :: l0), a, b. now rewrite E.
Qed.

Lemma get_model_name_with_slash (filename : string) :
  contains "/" filename = true -> exists name, get_model_name filename = Ok name.
Proof.
  intros H. destruct (last_two _ _ (split_length _ _ H)) as (l0 & a & b & E).
  exists (a ++ ":" ++ b). now apply (get_model_name_of_parts l0).
Qed.

(** X1. [get_model_name] returns a name exactly for the paths that hold
    a slash; a path without one has a single segment and the index [-2]
    raises [IndexError]. *)
Theorem get_model_name_needs_slash (filename : string) :
  (contains "/" filename = false -> get_model_name filename = Raise IndexError) /\
  ((exists name, get_model_name filename = Ok name) <-> contains "/" filename = true).
Proof.
  assert (H : contains "/" filename = false -> get_model_name filename = Raise IndexError).
  { intros E. unfold get_model_name. now rewrite (split_without_sep _ _ E). }
  split; [exact H|]. split.
  - intros [name E]. destruct (contains "/" filename) eqn:Ec; [reflexivity|].
    rewrite (H eq_refl) in E. discriminate E.
  - apply get_model_name_with_slash.
Qed.

Lemma get_model_name_needs_slash_witness :
  get_model_name "latest" = Raise IndexError /\
  exists name, get_model_name "llama3/latest" = Ok name.
Proof.
  split.
  - apply (proj1 (get_model_name_needs_slash "latest")). reflexivity.
  - apply (proj2 (get_model_name_needs_slash "llama3/latest")). reflexivity.
Defined.

(** ** The scan *)

Lemma walked_dir (c : node) : walked c = true -> exists es, c = Dir es.
Proof.
  destruct c as [x|t d|es]; [discriminate| |now exists es].
  unfold walked. simpl. now rewrite andb_false_r.
Qed.

Lemma walk_files_found (n : node) :
  forall top p c,
  In (p, c) (walk_files top n) -> found top n p c /\ is_dir c = false.
Proof.
  induction n as [x|target dest|es IH] using node_induction; intros top p c Hin;
    [destruct Hin|destruct Hin|].
  cbn [walk_files] in Hin. apply in_app_or in Hin as [Hin|Hin].
  - apply in_map_iff in Hin as ([name c'] & [= <- <-] & Hf).
    apply filter_In in Hf as [Hf Hd]. cbn [snd] in Hd.
    apply negb_true_iff in Hd. split; [now apply found_here|exact Hd].
  - apply in_flat_map in Hin as ([name d] & He & Hin). cbn [fst snd] in Hin.
    destruct (walked d) eqn:Ew; [|destruct Hin].
    destruct (walked_dir _ Ew) as [es' ->].
    rewrite Forall_forall in IH.
    destruct (IH _ He _ _ _ Hin) as [Hf Hd].
    split; [|exact Hd]. now apply found_below with (name := name) (es' := es').
Qed.

Lemma get_filenames_found (fs : node) (folder : string) (names : list string)
    (p : string) :
  get_filenames fs folder = Ok names ->
  In p names ->
  exists n c, lookup fs folder = Some n /\ found folder n p c /\ is_dir c = false.
Proof.
  unfold get_filenames, os_walk. intros [= <-] Hin.
  destruct (lookup fs folder) as [n|]; [|destruct Hin].
  rewrite walk_filenames in Hin.
  apply in_map_iff in Hin as ([p' c] & <- & Hin).
  exists n, c. split; [reflexivity|]. now apply walk_files_found.
Qed.

(** X2. [get_filenames] returns nothing but the paths of entries found
    in the directory or in a directory under it that are no directory
    and no link that leads to one: a directory is never listed as a
    manifest. *)
Theorem get_filenames_only_files (fs : node) (folder : string) (names : list string)
    (p : string) :
  get_filenames fs folder = Ok names ->
  In p names ->
  exists n c, lookup fs folder = Some n /\ found folder n p c /\ is_dir c = false.
Proof.
  intros Hg Hin. destruct (get_filenames_found fs folder names p Hg Hin)
    as (n & c & Hl & Hf & Hd).
  exists n, c. now repeat split.
Qed.

Lemma get_filenames_only_files_witness :
  exists n c,
    lookup Sample.fs_llama3 Sample.manifests_dir = Some n /\
    found Sample.manifests_dir n Sample.llama3_manifest c /\
    is_dir c = false.
Proof.
  apply (get_filenames_only_files Sample.fs_llama3 Sample.manifests_dir
           [Sample.llama3_manifest] Sample.llama3_manifest).
  - reflexivity.
  - now left.
Defined.

Lemma path_join_nonempty (a b : string) :
  a <> EmptyString -> path_join a b <> EmptyString.
Proof.
  intros Ha. unfold path_join.
  destruct b as [|c b]; cbn [startswith].
  - destruct a; [congruence|]. destruct (endswith_char _ _); discriminate.
  - destruct (Ascii.eqb "/" c && true); [discriminate|].
    destruct a; [congruence|]. destruct (endswith_char _ _); discriminate.
Qed.

Lemma endswith_char_contains (s : string) (c : ascii) :
  endswith_char s c = true -> contains c s = true.
Proof.
  induction s as [|d s IH]; [discriminate|]. cbn [endswith_char contains].
  destruct s as [|e s].
  - intros ->. reflexivity.
  - intros H. rewrite (IH H). apply orb_true_r.
Qed.

Lemma path_join_contains_slash (a b : string) :
  a <> EmptyString -> contains "/" (path_join a b) = true.
Proof.
  intros Ha. unfold path_join.
  destruct (startswith b "/") eqn:Eb.
  - destruct b as [|c b]; [discriminate|]. cbn [startswith] in Eb.
    apply andb_true_iff in Eb as [Eb _]. cbn [contains].
    rewrite Ascii.eqb_sym in Eb. now rewrite Eb.
  - destruct a as [|x a]; [congruence|].
    destruct (endswith_char (String x a) "/") eqn:Ee; rewrite contains_app.
    + now rewrite (endswith_char_contains _ _ Ee).
    + cbn. apply orb_true_r.
Qed.

Lemma found_contains_slash (top : string) (n : node) (p : string) (c : node) :
  found top n p c -> top <> EmptyString -> contains "/" p = true.
Proof.
  induction 1 as [top es name c Hin|top es name es' p c Hin _ IH]; intros Ht.
  - now apply path_join_contains_slash.
  - apply IH. now apply path_join_nonempty.
Qed.

Lemma lookup_from_empty (n : node) :
  forall cur, cur <> EmptyString -> lookup_from cur n EmptyString = None.
Proof.
  induction n as [x|target dest|es IH] using node_induction; intros cur Hc;
    cbn [lookup_from]; destruct cur as [|a cur]; try congruence;
    cbn [String.eqb]; try reflexivity.
  induction IH as [|[name c] es Hc' _ IHes]; [reflexivity|].
  cbn [find_map fst snd]. rewrite Hc'; [exact IHes|].
  now apply path_join_nonempty.
Qed.

(** X3. Every path that [get_filenames] returns holds a slash, so that
    [get_model_name] gives a name for it: in the main loop the name of a
    scanned manifest never raises [IndexError], and the name holds no
    slash. *)
Theorem scanned_path_has_name (fs : node) (folder : string) (names : list string)
    (file : string) :
  get_filenames fs folder = Ok names ->
  In file names ->
  exists name, get_model_name file = Ok name /\ contains "/" name = false.
Proof.
  intros Hg Hin.
  destruct (get_filenames_found fs folder names file Hg Hin)
    as (n & c & Hl & Hf & _).
  assert (Hfolder : folder <> EmptyString).
  { intros ->. unfold lookup in Hl.
    rewrite lookup_from_empty in Hl by discriminate. discriminate Hl. }
  destruct (get_model_name_with_slash file (found_contains_slash _ _ _ _ Hf Hfolder))
    as [name Hn].
  exists name. split; [exact Hn|].
  now destruct (get_model_name_component _ _ Hn).
Qed.

Lemma scanned_path_has_name_witness :
  exists name,
    get_model_name Sample.llama3_manifest = Ok name /\ contains "/" name = false.
Proof.
  apply (scanned_path_has_name Sample.fs_llama3 Sample.manifests_dir
           [Sample.llama3_manifest] Sample.llama3_manifest).
  - reflexivity.
  - now left.
Defined.

(** ** Manifests of other shapes *)

(** X4. A manifest that is a JSON object without the key [layers], or
    whose layers are all objects of another media type (an empty list
    among them), makes [get_model_blob] print one line and return
    [None]. *)
Theorem get_model_blob_without_model_layer (fs : node) (model_path : string)
    (doc : list (string * Json.value)) :
  stat fs model_path = IsFile (Parsed (Json.Object doc)) ->
  (Json.assoc "layers" doc = None \/
   exists layers, Json.assoc "layers" doc = Some (Json.Array layers) /\
                  forallb other_layer layers = true) ->
  get_model_blob fs model_path = (["No matching layer found."], Ok None).
Proof.
  intros Hs [Hnone|(layers & Hl & Hb)].
  - unfold get_model_blob, get_model_blob_try, json_load. rewrite Hs.
    cbn [bind Json.get]. now rewrite Hnone.
  - exact (get_model_blob_no_model_layer _ _ _ _ Hs Hl Hb).
Qed.

Lemma get_model_blob_without_model_layer_witness :
  get_model_blob Sample.fs_adapter_then_llama3 Sample.adapter_manifest =
    (["No matching layer found."], Ok None).
Proof.
  apply (get_model_blob_without_model_layer Sample.fs_adapter_then_llama3
           Sample.adapter_manifest
           [("schemaVersion", Json.Number 2);
            ("layers", Json.Array [Sample.template_layer])]).
  - reflexivity.
  - right. exists [Sample.template_layer]. split; reflexivity.
Defined.

(** X5. The [except] clauses of [get_model_blob] catch a missing file and
    a decoding error only.  Valid JSON of an unexpected shape leaves the
    function with an exception and nothing printed: [AttributeError]
    when the document is not an object, when a layer that is not an
    object comes before any model layer, or when the digest of the model
    layer is not a string; [TypeError] when [layers] is [null], a number
    or a boolean. *)
Theorem get_model_blob_unexpected_shape (fs : node) (model_path : string) :
  (forall j, stat fs model_path = IsFile (Parsed j) ->
     match j with Json.Object _ => False | _ => True end ->
     get_model_blob fs model_path = ([], Raise AttributeError)) /\
  (forall doc v, stat fs model_path = IsFile (Parsed (Json.Object doc)) ->
     Json.assoc "layers" doc = Some v ->
     match v with Json.Null | Json.Boolean _ | Json.Number _ => True | _ => False end ->
     get_model_blob fs model_path = ([], Raise TypeError)) /\
  (forall doc before v after,
     stat fs model_path = IsFile (Parsed (Json.Object doc)) ->
     Json.assoc "layers" doc = Some (Json.Array (before ++ v :: after)) ->
     forallb other_layer before = true ->
     match v with Json.Object _ => False | _ => True end ->
     get_model_blob fs model_path = ([], Raise AttributeError)) /\
  (forall doc before m after d,
     stat fs model_path = IsFile (Parsed (Json.Object doc)) ->
     Json.assoc "layers" doc = Some (Json.Array (before ++ Json.Object m :: after)) ->
     forallb other_layer before = true ->
     Json.assoc "mediaType" m = Some (Json.Str MODEL_MEDIA_TYPE) ->
     Json.assoc "digest" m = Some d ->
     match d with Json.Str _ => False | _ => True end ->
     get_model_blob fs model_path = ([], Raise AttributeError)).
Proof.
  split; [|split; [|split]].
  - intros j Hs Hj. unfold get_model_blob, get_model_blob_try, json_load.
    rewrite Hs. now destruct j.
  - intros doc v Hs Hl Hv. unfold get_model_blob, get_model_blob_try, json_load.
    rewrite Hs. cbn [bind Json.get]. rewrite Hl. now destruct v.
  - intros doc before v after Hs Hl Hb Hv. unfold get_model_blob.
    rewrite (get_model_blob_try_layers _ _ _ _ Hs Hl), (scan_layers_skip _ _ Hb).
    now destruct v.
  - intros doc before m after d Hs Hl Hb Hm Hd Hnot. unfold get_model_blob.
    rewrite (get_model_blob_try_layers _ _ _ _ Hs Hl), (scan_layers_skip _ _ Hb).
    rewrite (scan_layers_model _ after Hm). cbn [Json.get]. rewrite Hd.
    now destruct d.
Qed.

Lemma get_model_blob_unexpected_shape_witness :
  let list_manifest := File (Parsed (Json.Array [])) in
  let null_layers := File (Parsed (Json.Object [("layers", Json.Null)])) in
  let string_layer :=
    File (Parsed (Json.Object [("layers", Json.Array [Json.Str "model"])])) in
  let number_digest :=
    File (Parsed (Json.Object
      [("layers", Json.Array
         [Json.Object [("mediaType", Json.Str MODEL_MEDIA_TYPE);
                       ("digest", Json.Number 7)]])])) in
  get_model_blob (Dir [("a", list_manifest)]) "/a" = ([], Raise AttributeError) /\
  get_model_blob (Dir [("a", null_layers)]) "/a" = ([], Raise TypeError) /\
  get_model_blob (Dir [("a", string_layer)]) "/a" = ([], Raise AttributeError) /\
  get_model_blob (Dir [("a", number_digest)]) "/a" = ([], Raise AttributeError).
Proof.
  cbv zeta. split; [|split; [|split]].
  - apply (proj1 (get_model_blob_unexpected_shape _ "/a") (Json.Array []));
      [reflexivity|exact I].
  - apply (proj1 (proj2 (get_model_blob_unexpected_shape _ "/a"))
             [("layers", Json.Null)] Json.Null); [reflexivity|reflexivity|exact I].
  - apply (proj1 (proj2 (proj2 (get_model_blob_unexpected_shape _ "/a")))
             [("layers", Json.Array [Json.Str "model"])] [] (Json.Str "model") []);
      [reflexivity|reflexivity|reflexivity|exact I].
  - apply (proj2 (proj2 (proj2 (get_model_blob_unexpected_shape _ "/a")))
             [("layers", Json.Array
                 [Json.Object [("mediaType", Json.Str MODEL_MEDIA_TYPE);
                               ("digest", Json.Number 7)]])]
             []
             [("mediaType", Json.Str MODEL_MEDIA_TYPE); ("digest", Json.Number 7)]
             [] (Json.Number 7));
      [reflexivity|reflexivity|reflexivity|reflexivity|reflexivity|exact I].
Defined.

(** X6. The digest of the model layer is returned as it is when it
    holds no colon, that is when it has no scheme prefix to rewrite. *)
Theorem get_model_blob_digest_without_scheme (fs : node) (model_path : string)
    (doc m : list (string * Json.value)) (before after : list Json.value)
    (digest : string) :
  stat fs model_path = IsFile (Parsed (Json.Object doc)) ->
  Json.assoc "layers" doc = Some (Json.Array (before ++ Json.Object m :: after)) ->
  forallb other_layer before = true ->
  Json.assoc "mediaType" m = Some (Json.Str MODEL_MEDIA_TYPE) ->
  Json.assoc "digest" m = Some (Json.Str digest) ->
  contains ":" digest = false ->
  get_model_blob fs model_path = ([], Ok (Some digest)).
Proof.
  intros Hs Hl Hb Hm Hd Hc. unfold get_model_blob.
  rewrite (get_model_blob_try_layers _ _ _ _ Hs Hl), (scan_layers_skip _ _ Hb).
  rewrite (scan_layers_model _ after Hm). cbn [Json.get]. rewrite Hd.
  cbn [bind Json.str_replace]. unfold replace.
  now rewrite (replace_from_absent ":" "sha256:" "sha256-" digest eq_refl Hc).
Qed.

Lemma get_model_blob_digest_without_scheme_witness :
  get_model_blob
    (Dir [("a", Sample.manifest [Sample.layer MODEL_MEDIA_TYPE "md5-0a1b"])]) "/a" =
    ([], Ok (Some "md5-0a1b")).
Proof.
  apply (get_model_blob_digest_without_scheme _ "/a"
           [("schemaVersion", Json.Number 2);
            ("layers", Json.Array [Sample.layer MODEL_MEDIA_TYPE "md5-0a1b"])]
           [("mediaType", Json.Str MODEL_MEDIA_TYPE);
            ("digest", Json.Str "md5-0a1b");
            ("size", Json.Number 42)] [] []);
    reflexivity.
Defined.

(** ** What a reset prints and what it leaves *)

Lemma reset_walk_printed (blobs_dir : string) (n : node) :
  forall top,
  snd (reset_walk blobs_dir top n) =
    flat_map (fun pc : string * node =>
                match reset_entry blobs_dir (fst pc) (snd pc) with
                | Some line => [line]
                | None => []
                end) (walk_files top n).
Proof.
  induction n as [c|target dest|es IH] using node_induction; intros top;
    [reflexivity|reflexivity|].
  cbn [reset_walk snd walk_files]. rewrite flat_map_app. f_equal.
  - clear IH. induction es as [|[name c] es IHes]; [reflexivity|].
    cbn [flat_map filter fst snd]. rewrite IHes.
    destruct (is_dir c); reflexivity.
  - induction IH as [|[name c] es Hc _ IHes]; [reflexivity|].
    cbn [flat_map fst snd]. rewrite flat_map_app, IHes. f_equal.
    destruct (walked c); [apply Hc|reflexivity].
Qed.

Lemma printed_and_kept (blobs_dir : string) (l : list (string * node)) :
  List.length
    (flat_map (fun pc : string * node =>
                 match reset_entry blobs_dir (fst pc) (snd pc) with
                 | Some line => [line]
                 | None => []
                 end) l) +
  List.length (filter (fun pc => negb (points_into blobs_dir (snd pc))) l) =
  List.length l.
Proof.
  induction l as [|[p c] l IH]; [reflexivity|].
  cbn [flat_map filter fst snd].
  destruct (reset_entry blobs_dir p c) as [line|] eqn:E.
  - destruct (points_into blobs_dir c) eqn:Ep.
    + cbn. lia.
    + apply (reset_entry_points_into blobs_dir p) in Ep. congruence.
  - apply reset_entry_points_into in E. rewrite E. cbn. lia.
Qed.

(** X7. [reset_symlinks] prints one line for each entry that it
    unlinks, in the order of the walk, the line giving the path of the
    link and its target: the lines printed and the files that the walk
    still lists add up to the files that it listed before. *)
Theorem reset_symlinks_prints_each_unlink (fs : node) (directory blobs_dir : Path) :
  snd (reset_symlinks fs directory blobs_dir) =
    flat_map (fun pc : string * node =>
                match snd pc with
                | Link source _ =>
                    if startswith source (str blobs_dir)
                    then ["Delete symlink " ++ fst pc ++ " to Ollama model " ++ source]
                    else []
                | _ => []
                end) (os_walk_files fs (str directory)) /\
  List.length (snd (reset_symlinks fs directory blobs_dir)) +
  List.length (os_walk_files (fst (reset_symlinks fs directory blobs_dir))
                 (str directory)) =
  List.length (os_walk_files fs (str directory)).
Proof.
  assert (E : snd (reset_symlinks fs directory blobs_dir) =
              flat_map (fun pc : string * node =>
                          match reset_entry (str blobs_dir) (fst pc) (snd pc) with
                          | Some line => [line]
                          | None => []
                          end) (os_walk_files fs (str directory))).
  { pose proof (reset_symlinks_lookup fs directory blobs_dir) as H.
    unfold os_walk_files.
    destruct (lookup fs (str directory)) as [n|].
    - destruct H as (_ & -> & _). apply reset_walk_printed.
    - now rewrite H. }
  split.
  - rewrite E. apply flat_map_ext. intros [p c]. cbn [fst snd].
    destruct c as [x|source d|es]; try reflexivity.
    cbn [reset_entry]. now destruct (startswith source (str blobs_dir)).
  - rewrite E, os_walk_files_reset. apply printed_and_kept.
Qed.

Lemma shallow_some (o : option node) (x : node) :
  option_map shallow o = Some (shallow x) -> exists y, o = Some y /\ shallow y = shallow x.
Proof. destruct o as [y|]; [|discriminate]. intros [= H]. now exists y. Qed.

(** What a path names after the loops of [reset_symlinks], the tree
    being rooted at the directory that they walk. *)
Lemma reset_walk_frame (blobs_dir : string) (n : node) :
  forall cur p,
  (exists source dest,
     lookup_from cur n p = Some (Link source dest) /\
     startswith source blobs_dir = true) \/
  option_map shallow (lookup_from cur (fst (reset_walk blobs_dir cur n)) p) =
    option_map shallow (lookup_from cur n p).
Proof.
  induction n as [c|target dest|es IH] using node_induction; intros cur p;
    [now right|now right|].
  cbn [reset_walk fst]. destruct (String.eqb cur p) eqn:E.
  { right. cbn [lookup_from]. now rewrite E. }
  rewrite !lookup_from_dir by exact E.
  induction IH as [|[name c] es Hc _ IHes]; [now right|].
  cbn [flat_map fst snd]. rewrite find_map_app. cbn [find_map fst snd].
  specialize (Hc (path_join cur name) p). cbn [snd] in Hc.
  destruct (is_dir c) eqn:Ed.
  - destruct (walked c) eqn:Ew; cbn [find_map fst snd].
    + destruct Hc as [(source & dest & Hl & Hs)|Hc].
      * left. exists source, dest. now rewrite Hl.
      * destruct (lookup_from (path_join cur name) c p) as [x|] eqn:Ec.
        -- destruct (shallow_some _ _ Hc) as (y & -> & Hy). right. cbn. now rewrite Hy.
        -- destruct (lookup_from (path_join cur name)
                       (fst (reset_walk blobs_dir (path_join cur name) c)) p);
             [discriminate Hc|exact IHes].
    + destruct (lookup_from (path_join cur name) c p); [now right|exact IHes].
  - destruct (reset_entry blobs_dir (path_join cur name) c) as [line|] eqn:Er;
      cbn [find_map fst snd].
    + destruct c as [x|source dest|es']; try discriminate Er.
      cbn [reset_entry] in Er.
      destruct (startswith source blobs_dir) eqn:Es; [|discriminate Er].
      cbn [lookup_from]. destruct (String.eqb (path_join cur name) p).
      * left. now exists source, dest.
      * exact IHes.
    + destruct (lookup_from (path_join cur name) c p); [now right|exact IHes].
Qed.

(** The same for a change made by [update_at] somewhere in the tree. *)
Lemma update_where_frame (blobs_dir where_ : string) (f : node -> node * list string) :
  (forall n p,
     (exists source dest,
        lookup_from where_ n p = Some (Link source dest) /\
        startswith source blobs_dir = true) \/
     option_map shallow (lookup_from where_ (fst (f n)) p) =
       option_map shallow (lookup_from where_ n p)) ->
  forall n cur n' out p,
  update_where (fun c _ => String.eqb c where_) f cur n = Some (n', out) ->
  (exists source dest,
     lookup_from cur n p = Some (Link source dest) /\
     startswith source blobs_dir = true) \/
  option_map shallow (lookup_from cur n' p) = option_map shallow (lookup_from cur n p).
Proof.
  intros Hf.
  assert (Hhere : forall n cur n' out p,
            String.eqb cur where_ = true ->
            Some (f n) = Some (n', out) ->
            (exists source dest,
               lookup_from cur n p = Some (Link source dest) /\
               startswith source blobs_dir = true) \/
            option_map shallow (lookup_from cur n' p) =
              option_map shallow (lookup_from cur n p)).
  { intros n cur n' out p E [= H]. apply String.eqb_eq in E. subst cur.
    replace n' with (fst (f n)) by now rewrite H. apply Hf. }
  induction n as [c|target dest|es IH] using node_induction;
    intros cur n' out p Hu; cbn [update_where] in Hu;
    destruct (String.eqb cur where_) eqn:Ew;
    try (now apply (Hhere _ _ _ _ p Ew Hu)); try discriminate Hu.
  destruct (update_first _ es) as [[es' out']|] eqn:Eu; [|discriminate Hu].
  injection Hu as <- <-.
  destruct (String.eqb cur p) eqn:E.
  { right. cbn [lookup_from]. now rewrite E. }
  rewrite !lookup_from_dir by exact E. clear Ew E.
  revert es' out' Eu. induction IH as [|[name c] es Hc _ IHes]; intros es' out' Eu;
    [discriminate Eu|].
  cbn [update_first fst snd] in Eu. cbn [find_map fst snd]. cbn [snd] in Hc.
  destruct (update_where (fun c0 _ => String.eqb c0 where_) f (path_join cur name) c)
    as [[c' outc]|] eqn:Ec.
  - injection Eu as <- _. cbn [find_map fst snd].
    destruct (Hc _ _ _ p Ec) as [(source & dest & Hl & Hs)|Hr].
    + left. exists source, dest. now rewrite Hl.
    + destruct (lookup_from (path_join cur name) c p) as [x|] eqn:El.
      * destruct (shallow_some _ _ Hr) as (y & -> & Hy). right. cbn. now rewrite Hy.
      * destruct (lookup_from (path_join cur name) c' p); [discriminate Hr|now right].
  - destruct (update_first _ es) as [[r' outr]|] eqn:Er; [|discriminate Eu].
    injection Eu as <- _. cbn [find_map fst snd].
    destruct (lookup_from (path_join cur name) c p); [now right|].
    now apply (IHes r' outr).
Qed.

Lemma reset_symlinks_entry_at (fs : node) (directory blobs_dir : Path) (p : string) :
  link_into (str blobs_dir) fs p \/
  entry_at (fst (reset_symlinks fs directory blobs_dir)) p = entry_at fs p.
Proof.
  unfold reset_symlinks, update_at, link_into, entry_at, lookup.
  destruct (update_where _ _ "/" fs) as [[fs' out]|] eqn:Eu; [|now right].
  cbn [fst].
  apply (update_where_frame (str blobs_dir) (str directory)
           (reset_walk (str blobs_dir) (str directory))) with (out := out);
    [|exact Eu].
  intros n q. apply reset_walk_frame.
Qed.

(** X8. [reset_symlinks] changes nothing but links into the blob store:
    whatever a path names before the reset, unless it is a link whose
    target starts with the path of the blob store, it names after it,
    with the same content for a file and the same target for a link.
    The manifests and the blobs, which are regular files in
    directories, are never touched. *)
Theorem reset_symlinks_changes_only_links_into_store
    (fs : node) (directory blobs_dir : Path) :
  (forall p,
     link_into (str blobs_dir) fs p \/
     entry_at (fst (reset_symlinks fs directory blobs_dir)) p = entry_at fs p) /\
  (forall p n,
     lookup fs p = Some n -> points_into (str blobs_dir) n = false ->
     exists n',
       lookup (fst (reset_symlinks fs directory blobs_dir)) p = Some n' /\
       shallow n' = shallow n).
Proof.
  split; [intros p; apply reset_symlinks_entry_at|].
  intros p n Hl Hp.
  destruct (reset_symlinks_entry_at fs directory blobs_dir p)
    as [(source & dest & Hs & Ht)|H].
  - rewrite Hl in Hs. injection Hs as ->. cbn in Hp. congruence.
  - unfold entry_at in H. rewrite Hl in H. cbn [option_map] in H.
    destruct (shallow_some _ _ H) as (y & Hy & Hsh). now exists y.
Qed.

Lemma reset_symlinks_changes_only_links_into_store_witness :
  let fs' := fst (reset_symlinks Sample.fs_two_links
                    (RAMALAMA_DIR Sample.HOME) (OLLAMA_BLOBS_DIR Sample.HOME)) in
  exists n',
    lookup fs' "/home/u/.ollama/models/blobs/sha256-abc123" = Some n' /\
    shallow n' = File Sample.blob_content.
Proof.
  apply (proj2 (reset_symlinks_changes_only_links_into_store Sample.fs_two_links
                  (RAMALAMA_DIR Sample.HOME) (OLLAMA_BLOBS_DIR Sample.HOME))
           "/home/u/.ollama/models/blobs/sha256-abc123" (File Sample.blob_content));
    reflexivity.
Defined.

(** X9. When the target directory is missing, the reset unlinks
    nothing, prints nothing and raises nothing: a run with [--reset]
    ends normally with the tree as it was, and so does a run without
    the flag when the directory of the manifests is missing too. *)
Theorem main_without_directories (HOME : string) (fs : node) :
  lookup fs (str (RAMALAMA_DIR HOME)) = None ->
  reset_symlinks fs (RAMALAMA_DIR HOME) (OLLAMA_BLOBS_DIR HOME) = (fs, []) /\
  main HOME true fs = (fs, [], Ok tt) /\
  (lookup fs (str (OLLAMA_MANIFESTS_DIR HOME)) = None ->
   main HOME false fs = (fs, [], Ok tt)).
Proof.
  intros Ht.
  pose proof (reset_symlinks_lookup fs (RAMALAMA_DIR HOME) (OLLAMA_BLOBS_DIR HOME)) as H.
  rewrite Ht in H. split; [exact H|]. unfold main. rewrite H. split; [reflexivity|].
  intros Hm. unfold get_filenames, os_walk. now rewrite Hm.
Qed.

Lemma main_without_directories_witness :
  main Sample.HOME true Sample.fs_without_ollama =
    (Sample.fs_without_ollama, [], Ok tt) /\
  main Sample.HOME false Sample.fs_without_ollama =
    (Sample.fs_without_ollama, [], Ok tt).
Proof.
  pose proof (main_without_directories Sample.HOME Sample.fs_without_ollama eq_refl)
    as (_ & Hreset & Hsync).
  split; [exact Hreset|exact (Hsync eq_refl)].
Defined.

(** ** What a link changes *)

Lemma add_entry_frame (dst : string) (x : node) (n : node) :
  islink x = true ->
  forall cur n' out p,
  p <> dst ->
  update_where (parent_of dst) (add_entry (basename dst) x) cur n = Some (n', out) ->
  option_map shallow (lookup_from cur n' p) = option_map shallow (lookup_from cur n p).
Proof.
  intros Hx.
  induction n as [c|target dest|es IH] using node_induction;
    intros cur n' out p Hp Hu; [discriminate Hu|discriminate Hu|].
  cbn [update_where parent_of] in Hu.
  destruct (String.eqb (path_join cur (basename dst)) dst) eqn:Et.
  - cbn [add_entry] in Hu. injection Hu as <- _.
    destruct (String.eqb cur p) eqn:E; [cbn [lookup_from]; now rewrite E|].
    rewrite !lookup_from_dir, find_map_app by exact E.
    destruct (find_map _ es); [reflexivity|]. cbn [find_map fst snd].
    destruct x as [y|source d|es']; try discriminate Hx. cbn [lookup_from].
    apply String.eqb_eq in Et. rewrite Et.
    replace (String.eqb dst p) with false; [reflexivity|].
    symmetry. apply String.eqb_neq. congruence.
  - destruct (update_first _ es) as [[es' out']|] eqn:Eu; [|discriminate Hu].
    injection Hu as <- _.
    destruct (String.eqb cur p) eqn:E; [cbn [lookup_from]; now rewrite E|].
    rewrite !lookup_from_dir by exact E. clear E Et.
    revert es' out' Eu. induction IH as [|[name c] es Hc _ IHes]; intros es' out' Eu;
      [discriminate Eu|].
    cbn [update_first fst snd] in Eu. cbn [find_map fst snd]. cbn [snd] in Hc.
    destruct (update_where (parent_of dst) (add_entry (basename dst) x)
                (path_join cur name) c) as [[c' outc]|] eqn:Ec.
    + injection Eu as <- _. cbn [find_map fst snd].
      specialize (Hc _ _ _ p Hp Ec).
      destruct (lookup_from (path_join cur name) c p) as [y|].
      * destruct (shallow_some _ _ Hc) as (z & -> & Hz). cbn. now rewrite Hz.
      * destruct (lookup_from (path_join cur name) c' p); [discriminate Hc|reflexivity].
    + destruct (update_first _ es) as [[r' outr]|] eqn:Er; [|discriminate Eu].
      injection Eu as <- _. cbn [find_map fst snd].
      destruct (lookup_from (path_join cur name) c p); [reflexivity|].
      now apply (IHes r' outr).
Qed.

Lemma symlink_frame (fs fs' : node) (src dst p : string) :
  symlink fs src dst = Ok fs' -> p <> dst -> entry_at fs' p = entry_at fs p.
Proof.
  unfold symlink, entry_at, lookup. intros H Hp.
  destruct (lookup_from "/" fs dst); [discriminate H|].
  destruct (basename dst) as [|b name] eqn:Eb; [discriminate H|].
  rewrite <- Eb in H.
  destruct (update_where (parent_of dst)
              (add_entry (basename dst) (Link src (stat fs src))) "/" fs)
    as [[n' out]|] eqn:Eu; [|destruct (not_a_directory fs dst); discriminate H].
  injection H as <-.
  exact (add_entry_frame dst (Link src (stat fs src)) fs eq_refl "/" n' out p Hp Eu).
Qed.

Lemma create_symlink_cases (fs : node) (src target : string) :
  (exists fs', create_symlink fs src target = (fs', Ok true) /\
               exists_ fs src = true /\ symlink fs src target = Ok fs') \/
  (exists e, create_symlink fs src target = (fs, Raise e)).
Proof.
  unfold create_symlink. destruct (exists_ fs src); cbn [negb].
  - destruct (symlink fs src target) as [fs'|e].
    + left. now exists fs'.
    + right. now exists e.
  - right. now exists FileNotFoundError.
Qed.

(** X10. When [create_symlink] returns, it returns [True], never the
    [False] of its docstring, and then the target was free, the source
    exists, the target names a link to the source as it was written,
    which is not broken, and no other path names anything else than
    before. *)
Theorem create_symlink_makes_one_link (fs fs' : node) (src target : string) (b : bool) :
  create_symlink fs src target = (fs', Ok b) ->
  b = true /\
  lookup fs target = None /\
  lookup fs' target = Some (Link src (stat fs src)) /\
  stat fs src <> NoEnt /\
  (forall p, p <> target -> entry_at fs' p = entry_at fs p).
Proof.
  intros H.
  destruct (create_symlink_cases fs src target) as [(fs1 & E & Hex & Hsym)|[e E]];
    rewrite E in H; [|discriminate H].
  injection H as <- <-. split; [reflexivity|]. split; [|split; [|split]].
  - unfold symlink in Hsym. now destruct (lookup fs target).
  - now apply symlink_lookup.
  - unfold exists_ in Hex. intros Hn. now rewrite Hn in Hex.
  - intros p Hp. now apply (symlink_frame _ _ _ _ _ Hsym).
Qed.

Lemma create_symlink_makes_one_link_witness :
  let fs' := Sample.tree [Sample.llama3] [Sample.llama3_blob] [Sample.link_to_blob] in
  lookup fs' "/home/u/.local/share/ramalama/models/ollama/llama3:latest" =
    Some (snd Sample.link_to_blob) /\
  entry_at fs' Sample.llama3_manifest = entry_at Sample.fs_llama3 Sample.llama3_manifest.
Proof.
  pose proof (create_symlink_makes_one_link Sample.fs_llama3
                (Sample.tree [Sample.llama3] [Sample.llama3_blob] [Sample.link_to_blob])
                "/home/u/.ollama/models/blobs/sha256-abc123"
                "/home/u/.local/share/ramalama/models/ollama/llama3:latest"
                true eq_refl) as (_ & _ & Hl & _ & Hf).
  cbv zeta. split; [exact Hl|]. apply Hf. discriminate.
Defined.

(** X11. [create_symlink] does not overwrite: when the source exists and
    the target names something already, a link or not, broken or not, it
    raises [FileExistsError].  Whenever it raises, whatever the
    exception, the tree is left as it was. *)
Theorem create_symlink_failure (fs : node) (src target : string) :
  (forall n, exists_ fs src = true -> lookup fs target = Some n ->
     create_symlink fs src target = (fs, Raise FileExistsError)) /\
  (forall fs' e, create_symlink fs src target = (fs', Raise e) -> fs' = fs).
Proof.
  split.
  - intros n Hex Hl. unfold create_symlink, symlink. now rewrite Hex, Hl.
  - intros fs' e H.
    destruct (create_symlink_cases fs src target) as [(fs1 & E & _)|[e1 E]];
      rewrite E in H; [discriminate H|].
    now injection H as <- _.
Qed.

Lemma create_symlink_failure_witness :
  create_symlink Sample.fs_two_links
    "/home/u/.ollama/models/blobs/sha256-abc123"
    "/home/u/.local/share/ramalama/models/ollama/llama3:latest" =
    (Sample.fs_two_links, Raise FileExistsError) /\
  create_symlink Sample.fs_two_links
    "/home/u/.ollama/models/blobs/sha256-abc123"
    "/home/u/.local/share/ramalama/models/ollama/README/phi:mini" =
    (Sample.fs_two_links, Raise NotADirectoryError).
Proof.
  split.
  - apply (proj1 (create_symlink_failure Sample.fs_two_links
                    "/home/u/.ollama/models/blobs/sha256-abc123"
                    "/home/u/.local/share/ramalama/models/ollama/llama3:latest")
             (snd Sample.link_to_blob));
      reflexivity.
  - pose proof (proj2 (create_symlink_failure Sample.fs_two_links
                  "/home/u/.ollama/models/blobs/sha256-abc123"
                  "/home/u/.local/share/ramalama/models/ollama/README/phi:mini")) as H.
    destruct (create_symlink Sample.fs_two_links
                "/home/u/.ollama/models/blobs/sha256-abc123"
                "/home/u/.local/share/ramalama/models/ollama/README/phi:mini")
      as [fs' r] eqn:E.
    assert (Hr : r = Raise NotADirectoryError)
      by (apply (f_equal snd) in E; cbn [snd] in E; rewrite <- E; reflexivity).
    subst r. now rewrite (H fs' NotADirectoryError eq_refl).
Defined.

(** ** The link of a model *)

Lemma of_string_single (s : string) :
  contains "/" s = false -> s <> EmptyString -> s <> "." ->
  of_string s = {| root := EmptyString; parts := [s] |}.
Proof.
  intros Hs He Hd. unfold of_string. rewrite (split_without_sep _ _ Hs).
  destruct s as [|c s]; [congruence|].
  cbn in Hs. apply orb_false_iff in Hs as [Hs _].
  cbn [startswith]. rewrite Ascii.eqb_sym, Hs. cbn [andb filter].
  replace (is_part (String c s)) with true; [reflexivity|].
  unfold is_part. apply String.eqb_neq in He, Hd. now rewrite He, Hd.
Qed.

Lemma OLLAMA_BLOBS_DIR_parts (HOME : string) :
  OLLAMA_BLOBS_DIR HOME =
    {| root := root (home HOME);
       parts := ((parts (home HOME) ++ [".ollama"; "models"]) ++ ["blobs"])%list |}.
Proof. reflexivity. Qed.

(** The path of a blob is that of an entry of the blob store. *)
Lemma blob_path (HOME blob : string) :
  contains "/" blob = false -> blob <> EmptyString -> blob <> "." ->
  str (div (OLLAMA_BLOBS_DIR HOME) (of_string blob)) =
    path_join (str (OLLAMA_BLOBS_DIR HOME)) blob.
Proof.
  intros Hs He Hd. rewrite (of_string_single _ Hs He Hd), OLLAMA_BLOBS_DIR_parts.
  unfold div. cbn [root parts].
  set (r := root (home HOME)).
  set (ps := (parts (home HOME) ++ [".ollama"; "models"])%list).
  assert (Hps : ps <> []) by (subst ps; now destruct (parts (home HOME))).
  assert (Hps' : (ps ++ ["blobs"])%list <> []) by now destruct ps.
  rewrite !str_parts by (try exact Hps'; now destruct ps).
  rewrite (join_snoc _ _ blob Hps'), <- append_assoc.
  unfold path_join.
  destruct blob as [|c blob]; [congruence|].
  cbn in Hs. apply orb_false_iff in Hs as [Hs _].
  cbn [startswith]. rewrite Ascii.eqb_sym, Hs. cbn [andb].
  rewrite (join_snoc _ _ "blobs" Hps), <- !append_assoc.
  rewrite endswith_char_app by discriminate.
  replace (endswith_char "blobs" "/") with false by reflexivity.
  destruct (((r ++ join "/" ps) ++ "/") ++ "blobs") eqn:E; [|reflexivity].
  destruct ((r ++ join "/" ps) ++ "/"); discriminate E.
Qed.

(** X12. The turn of the loop for a well-formed manifest: when the
    first model layer has the digest [sha256:<hex>], the blob
    [sha256-<hex>] exists in the blob store, the target directory is
    there and the name [<name>:<tag>] is free in it, the turn makes the
    entry [<name>:<tag>] of the target directory a link to the entry
    [sha256-<hex>] of the blob store, prints one line and raises
    nothing. *)
Theorem sync_file_links_model (HOME : string) (fs : node) (file : string)
    (doc m : list (string * Json.value)) (before after : list Json.value)
    (hex name : string) (es : list entry) :
  stat fs file = IsFile (Parsed (Json.Object doc)) ->
  Json.assoc "layers" doc = Some (Json.Array (before ++ Json.Object m :: after)) ->
  forallb other_layer before = true ->
  Json.assoc "mediaType" m = Some (Json.Str MODEL_MEDIA_TYPE) ->
  Json.assoc "digest" m = Some (Json.Str ("sha256:" ++ hex)) ->
  contains ":" hex = false ->
  contains "/" hex = false ->
  get_model_name file = Ok name ->
  exists_ fs (path_join (str (OLLAMA_BLOBS_DIR HOME)) ("sha256-" ++ hex)) = true ->
  lookup fs (str (RAMALAMA_DIR HOME)) = Some (Dir es) ->
  lookup fs (path_join (str (RAMALAMA_DIR HOME)) name) = None ->
  exists fs',
    sync_file HOME fs file =
      (fs',
       ["Model " ++ path_join (str (RAMALAMA_DIR HOME)) name ++
        " symlinked to existing blob " ++
        path_join (str (OLLAMA_BLOBS_DIR HOME)) ("sha256-" ++ hex)],
       Ok tt) /\
    lookup fs' (path_join (str (RAMALAMA_DIR HOME)) name) =
      Some (Link (path_join (str (OLLAMA_BLOBS_DIR HOME)) ("sha256-" ++ hex))
                 (stat fs (path_join (str (OLLAMA_BLOBS_DIR HOME)) ("sha256-" ++ hex)))).
Proof.
  intros Hs Hl Hb Hm Hd Hcolon Hslash Hname Hex Hdir Hfree.
  assert (E : get_model_blob fs file = ([], Ok (Some ("sha256-" ++ hex)))).
  { unfold get_model_blob.
    rewrite (get_model_blob_try_layers _ _ _ _ Hs Hl), (scan_layers_skip _ _ Hb).
    rewrite (scan_layers_model _ after Hm). cbn [Json.get]. rewrite Hd.
    cbn [bind Json.str_replace]. now rewrite (replace_sha256_prefix _ Hcolon). }
  destruct (get_model_name_component _ _ Hname) as [Hns Hnc].
  destruct (target_path HOME name Hns Hnc) as [_ Ht].
  assert (Hblob : str (div (OLLAMA_BLOBS_DIR HOME) (of_string ("sha256-" ++ hex))) =
                  path_join (str (OLLAMA_BLOBS_DIR HOME)) ("sha256-" ++ hex)).
  { apply blob_path; [|discriminate|discriminate].
    rewrite contains_app, Hslash. reflexivity. }
  rewrite Ht in Hfree |- *.
  destruct (symlink_model HOME fs
              (path_join (str (OLLAMA_BLOBS_DIR HOME)) ("sha256-" ++ hex))
              name es Hns Hnc Hdir Hfree) as [fs' Hsym].
  exists fs'. split.
  - unfold sync_file. rewrite Hname, E. cbn [bind of_value].
    rewrite Hblob. unfold create_symlink. rewrite Hex, Hsym. reflexivity.
  - now apply symlink_lookup.
Qed.

Lemma sync_file_links_model_witness :
  exists fs',
    sync_file Sample.HOME Sample.fs_llama3 Sample.llama3_manifest =
      (fs',
       ["Model /home/u/.local/share/ramalama/models/ollama/llama3:latest symlinked to existing blob /home/u/.ollama/models/blobs/sha256-abc123"],
       Ok tt) /\
    lookup fs' "/home/u/.local/share/ramalama/models/ollama/llama3:latest" =
      Some (snd Sample.link_to_blob).
Proof.
  exact (sync_file_links_model Sample.HOME Sample.fs_llama3 Sample.llama3_manifest
           [("schemaVersion", Json.Number 2);
            ("layers", Json.Array [Sample.template_layer;
                                   Sample.layer MODEL_MEDIA_TYPE "sha256:abc123"])]
           [("mediaType", Json.Str MODEL_MEDIA_TYPE);
            ("digest", Json.Str "sha256:abc123");
            ("size", Json.Number 42)]
           [Sample.template_layer] [] "abc123" "llama3:latest" []
           eq_refl eq_refl eq_refl eq_refl eq_refl eq_refl eq_refl eq_refl
           eq_refl eq_refl eq_refl).
Defined.

(** ** The loop *)




(** ** What a run changes *)

Lemma sync_file_frame (HOME : string) (fs fs' : node) (file : string)
    (out : list string) (r : result unit) (p : string) :
  sync_file HOME fs file = (fs', out, r) ->
  (exists name, contains "/" name = false /\
                p = path_join (str (RAMALAMA_DIR HOME)) name) \/
  entry_at fs' p = entry_at fs p.
Proof.
  unfold sync_file.
  destruct (get_model_name file) as [name|e0] eqn:Hname; [|intros [= <- _ _]; now right].
  destruct (get_model_blob fs file) as [o [[blob|]|e1]]; cbn [bind of_value];
    try (intros [= <- _ _]; now right).
  destruct (create_symlink_cases fs
              (str (div (OLLAMA_BLOBS_DIR HOME) (of_string blob)))
              (str (div (RAMALAMA_DIR HOME) (of_string name))))
    as [(fs1 & E & _ & Hsym)|[e1 E]]; rewrite E.
  - intros [= <- _ _].
    destruct (get_model_name_component _ _ Hname) as [Hns Hnc].
    destruct (target_path HOME name Hns Hnc) as [_ Ht].
    destruct (string_dec p (str (div (RAMALAMA_DIR HOME) (of_string name)))) as [->|Hp].
    + left. exists name. now split.
    + right. now apply (symlink_frame _ _ _ _ _ Hsym).
  - intros [= <- _ _]. now right.
Qed.

Lemma sync_loop_frame (HOME : string) (files : list string) (p : string) :
  forall fs fs' out r,
  sync_loop HOME fs files = (fs', out, r) ->
  (exists name, contains "/" name = false /\
                p = path_join (str (RAMALAMA_DIR HOME)) name) \/
  entry_at fs' p = entry_at fs p.
Proof.
  induction files as [|f files IH]; intros fs fs' out r H; cbn [sync_loop] in H.
  - injection H as <- _ _. now right.
  - destruct (sync_file HOME fs f) as [[fs1 o1] r1] eqn:Ef.
    destruct (sync_file_frame _ _ _ _ _ _ p Ef) as [Hl|H1]; [now left|].
    destruct r1 as [[]|e1].
    + destruct (sync_loop HOME fs1 files) as [[fs2 o2] r2] eqn:El.
      injection H as <- _ _.
      destruct (IH _ _ _ _ El) as [Hl|H2]; [now left|]. right. congruence.
    + injection H as <- _ _. now right.
Qed.

(** X14. A run of the script, with [--reset] or without, changes
    nothing but links into the blob store, which the reset unlinks, and
    entries of the target directory, where the loop makes its links:
    any other path names after the run what it named before, with the
    same content for a file and the same target for a link.  The
    manifests and the blobs are only read. *)
Theorem main_changes_only_links (HOME : string) (reset : bool) (fs fs' : node)
    (out : list string) (r : result unit) (p : string) :
  main HOME reset fs = (fs', out, r) ->
  link_into (str (OLLAMA_BLOBS_DIR HOME)) fs p \/
  (exists name, contains "/" name = false /\
                p = path_join (str (RAMALAMA_DIR HOME)) name) \/
  entry_at fs' p = entry_at fs p.
Proof.
  unfold main. intros Hmain.
  pose proof (reset_symlinks_entry_at fs (RAMALAMA_DIR HOME) (OLLAMA_BLOBS_DIR HOME) p)
    as Hreset.
  destruct (reset_symlinks fs (RAMALAMA_DIR HOME) (OLLAMA_BLOBS_DIR HOME))
    as [fs1 out1]. cbn [fst] in Hreset.
  destruct Hreset as [Hl|H1]; [now left|]. right.
  destruct reset.
  - injection Hmain as <- _ _. now right.
  - unfold get_filenames in Hmain.
    destruct (sync_loop HOME fs1 _) as [[fs2 out2] r2] eqn:El.
    injection Hmain as <- _ _.
    destruct (sync_loop_frame _ _ p _ _ _ _ El) as [Hn|H2]; [now left|].
    right. congruence.
Qed.

Lemma main_changes_only_links_witness :
  let fs' := Sample.tree [Sample.llama3] [Sample.llama3_blob] [Sample.link_to_blob] in
  entry_at fs' Sample.llama3_manifest = entry_at Sample.fs_llama3 Sample.llama3_manifest /\
  entry_at fs' "/home/u/.ollama/models/blobs/sha256-abc123" =
    entry_at Sample.fs_llama3 "/home/u/.ollama/models/blobs/sha256-abc123".
Proof.
  cbv zeta. split.
  - destruct (main_changes_only_links Sample.HOME false Sample.fs_llama3
                (Sample.tree [Sample.llama3] [Sample.llama3_blob] [Sample.link_to_blob])
                ["Model /home/u/.local/share/ramalama/models/ollama/llama3:latest symlinked to existing blob /home/u/.ollama/models/blobs/sha256-abc123"]
                (Ok tt) Sample.llama3_manifest eq_refl)
      as [(s & d & H & _)|[(name & _ & H)|H]]; [discriminate H| |exact H].
    reflexivity.
  - destruct (main_changes_only_links Sample.HOME false Sample.fs_llama3
                (Sample.tree [Sample.llama3] [Sample.llama3_blob] [Sample.link_to_blob])
                ["Model /home/u/.local/share/ramalama/models/ollama/llama3:latest symlinked to existing blob /home/u/.ollama/models/blobs/sha256-abc123"]
                (Ok tt) "/home/u/.ollama/models/blobs/sha256-abc123" eq_refl)
      as [(s & d & H & _)|[(name & _ & H)|H]]; [discriminate H| |exact H].
    reflexivity.
Defined.

Lemma symlink_free (fs fs' : node) (src dst : string) :
  symlink fs src dst = Ok fs' -> lookup fs dst = None.
Proof. unfold symlink. now destruct (lookup fs dst). Qed.

Lemma entry_at_some (fs : node) (p : string) (n : node) :
  entry_at fs p = Some (shallow n) ->
  exists n', lookup fs p = Some n' /\ shallow n' = shallow n.
Proof. apply shallow_some. Qed.

Lemma sync_file_keeps (HOME : string) (fs fs' : node) (file : string)
    (out : list string) (r : result unit) (p : string) (n : node) :
  sync_file HOME fs file = (fs', out, r) ->
  lookup fs p = Some n ->
  entry_at fs' p = entry_at fs p.
Proof.
  unfold sync_file. intros H Hp.
  destruct (get_model_name file) as [name|e0]; [|now injection H as <- _ _].
  destruct (get_model_blob fs file) as [o [[blob|]|e1]]; cbn [bind of_value] in H;
    try now injection H as <- _ _.
  destruct (create_symlink_cases fs
              (str (div (OLLAMA_BLOBS_DIR HOME) (of_string blob)))
              (str (div (RAMALAMA_DIR HOME) (of_string name))))
    as [(fs1 & E & _ & Hsym)|[e1 E]]; rewrite E in H.
  - injection H as <- _ _. apply (symlink_frame _ _ _ _ _ Hsym).
    intros ->. rewrite (symlink_free _ _ _ _ Hsym) in Hp. discriminate Hp.
  - now injection H as <- _ _.
Qed.

Lemma sync_loop_keeps (HOME : string) (files : list string) (p : string) :
  forall fs fs' out r n,
  sync_loop HOME fs files = (fs', out, r) ->
  lookup fs p = Some n ->
  exists n', lookup fs' p = Some n' /\ shallow n' = shallow n.
Proof.
  induction files as [|f files IH]; intros fs fs' out r n H Hp; cbn [sync_loop] in H.
  - injection H as <- _ _. now exists n.
  - destruct (sync_file HOME fs f) as [[fs1 o1] r1] eqn:Ef.
    pose proof (sync_file_keeps _ _ _ _ _ _ _ _ Ef Hp) as H1.
    unfold entry_at at 2 in H1. rewrite Hp in H1. cbn [option_map] in H1.
    destruct (entry_at_some _ _ _ H1) as (n1 & Hp1 & Hs1).
    destruct r1 as [[]|e1].
    + destruct (sync_loop HOME fs1 files) as [[fs2 o2] r2] eqn:El.
      injection H as <- _ _.
      destruct (IH _ _ _ _ _ El Hp1) as (n2 & Hp2 & Hs2).
      exists n2. split; [exact Hp2|congruence].
    + injection H as <- _ _. now exists n1.
Qed.

(** X15. The loop over the manifests only adds: whatever a path names
    before the loop, it names after it, with the same content for a
    file and the same target for a link, however the loop ends.  An
    entry that is in the way of a link is never replaced. *)
Theorem sync_loop_only_adds (HOME : string) (files : list string) (fs fs' : node)
    (out : list string) (r : result unit) (p : string) (n : node) :
  sync_loop HOME fs files = (fs', out, r) ->
  lookup fs p = Some n ->
  exists n', lookup fs' p = Some n' /\ shallow n' = shallow n.
Proof. intros H Hp. exact (sync_loop_keeps HOME files p _ _ _ _ n H Hp). Qed.

Lemma sync_loop_only_adds_witness :
  let in_the_way : entry := ("llama3:latest", File (Malformed "not a model")) in
  let phi_link : entry :=
    ("phi:mini",
     Link "/home/u/.ollama/models/blobs/sha256-def456" (IsFile Sample.blob_content)) in
  let fs := Sample.tree [Sample.phi; Sample.llama3]
              [Sample.phi_blob; Sample.llama3_blob]
              [in_the_way; Sample.link_elsewhere] in
  let fs' := Sample.tree [Sample.phi; Sample.llama3]
               [Sample.phi_blob; Sample.llama3_blob]
               [in_the_way; Sample.link_elsewhere; phi_link] in
  sync_loop Sample.HOME fs [Sample.phi_manifest; Sample.llama3_manifest] =
    (fs',
     ["Model /home/u/.local/share/ramalama/models/ollama/phi:mini symlinked to existing blob /home/u/.ollama/models/blobs/sha256-def456"],
     Raise FileExistsError) /\
  lookup fs "/home/u/.local/share/ramalama/models/ollama/phi:mini" = None /\
  lookup fs' "/home/u/.local/share/ramalama/models/ollama/phi:mini" =
    Some (snd phi_link) /\
  (exists n',
     lookup fs' "/home/u/.local/share/ramalama/models/ollama/llama3:latest" = Some n' /\
     shallow n' = snd in_the_way) /\
  (exists n',
     lookup fs' "/home/u/.local/share/ramalama/models/ollama/mistral:7b" = Some n' /\
     shallow n' = snd Sample.link_elsewhere).
Proof.
  cbv zeta. split; [reflexivity|]. split; [reflexivity|]. split; [reflexivity|].
  split.
  - apply (sync_loop_only_adds Sample.HOME
             [Sample.phi_manifest; Sample.llama3_manifest]
             (Sample.tree [Sample.phi; Sample.llama3]
                [Sample.phi_blob; Sample.llama3_blob]
                [("llama3:latest", File (Malformed "not a model"));
                 Sample.link_elsewhere])
             _
             ["Model /home/u/.local/share/ramalama/models/ollama/phi:mini symlinked to existing blob /home/u/.ollama/models/blobs/sha256-def456"]
             (Raise FileExistsError)
             "/home/u/.local/share/ramalama/models/ollama/llama3:latest"
             (File (Malformed "not a model")));
      reflexivity.
  - apply (sync_loop_only_adds Sample.HOME
             [Sample.phi_manifest; Sample.llama3_manifest]
             (Sample.tree [Sample.phi; Sample.llama3]
                [Sample.phi_blob; Sample.llama3_blob]
                [("llama3:latest", File (Malformed "not a model"));
                 Sample.link_elsewhere])
             _
             ["Model /home/u/.local/share/ramalama/models/ollama/phi:mini symlinked to existing blob /home/u/.ollama/models/blobs/sha256-def456"]
             (Raise FileExistsError)
             "/home/u/.local/share/ramalama/models/ollama/mistral:7b"
             (snd Sample.link_elsewhere));
      reflexivity.
Defined.

Lemma get_model_blob_some_silent (fs : node) (model_path : string)
    (out : list string) (blob : string) :
  get_model_blob fs model_path = (out, Ok (Some blob)) -> out = [].
Proof.
  unfold get_model_blob.
  destruct (get_model_blob_try fs model_path) as [[b|]|e].
  - now intros [= <- _].
  - discriminate.
  - destruct e; discriminate.
Qed.

Lemma shallow_link (n : node) (source : string) (dest : stat_result) :
  shallow n = shallow (Link source dest) -> n = Link source dest.
Proof. destruct n; cbn; congruence. Qed.

Lemma sync_file_ok (HOME : string) (fs fs' : node) (file : string) (out : list string) :
  sync_file HOME fs file = (fs', out, Ok tt) ->
  exists name src,
    get_model_name file = Ok name /\
    List.length out = 1 /\
    stat fs src <> NoEnt /\
    lookup fs' (path_join (str (RAMALAMA_DIR HOME)) name) =
      Some (Link src (stat fs src)).
Proof.
  unfold sync_file. intros H.
  destruct (get_model_name file) as [name|e0] eqn:Hname; [|discriminate H].
  destruct (get_model_blob fs file) as [o [[blob|]|e1]] eqn:Hblob;
    cbn [bind of_value] in H; try discriminate H.
  apply get_model_blob_some_silent in Hblob. subst o.
  destruct (create_symlink_cases fs
              (str (div (OLLAMA_BLOBS_DIR HOME) (of_string blob)))
              (str (div (RAMALAMA_DIR HOME) (of_string name))))
    as [(fs1 & E & Hex & Hsym)|[e1 E]]; rewrite E in H; [|discriminate H].
  injection H as <- <-.
  destruct (get_model_name_component _ _ Hname) as [Hns Hnc].
  destruct (target_path HOME name Hns Hnc) as [_ Ht].
  exists name, (str (div (OLLAMA_BLOBS_DIR HOME) (of_string blob))).
  split; [reflexivity|]. split; [reflexivity|]. split.
  - unfold exists_ in Hex. intros Hn. now rewrite Hn in Hex.
  - rewrite Ht. now apply symlink_lookup.
Qed.

(** X16. When the loop over the manifests ends normally, it has printed
    one line for each manifest and each manifest has its link: the
    entry of the target directory under the name of the model is a link
    whose source existed when the link was made. *)
Theorem sync_loop_success (HOME : string) (files : list string) :
  forall fs fs' out,
  sync_loop HOME fs files = (fs', out, Ok tt) ->
  List.length out = List.length files /\
  (forall file, In file files ->
     exists name src dest,
       get_model_name file = Ok name /\
       dest <> NoEnt /\
       lookup fs' (path_join (str (RAMALAMA_DIR HOME)) name) = Some (Link src dest)).
Proof.
  induction files as [|f files IH]; intros fs fs' out H; cbn [sync_loop] in H.
  - injection H as <- <-. split; [reflexivity|]. intros file [].
  - destruct (sync_file HOME fs f) as [[fs1 o1] [[]|e1]] eqn:Ef; [|discriminate H].
    destruct (sync_loop HOME fs1 files) as [[fs2 o2] r2] eqn:El.
    injection H as <- <- ->.
    destruct (IH _ _ _ El) as [Hlen Hall].
    destruct (sync_file_ok _ _ _ _ _ Ef) as (name & src & Hname & Hl1 & Hsrc & Hlink).
    split; [rewrite length_app; cbn [List.length]; lia|].
    intros file [<-|Hin]; [|now apply Hall].
    destruct (sync_loop_keeps HOME files _ _ _ _ _ _ El Hlink) as (n' & Hn' & Hs).
    apply shallow_link in Hs. subst n'.
    now exists name, src, (stat fs src).
Qed.

Lemma sync_loop_success_witness :
  List.length
    ["Model /home/u/.local/share/ramalama/models/ollama/llama3:latest symlinked to existing blob /home/u/.ollama/models/blobs/sha256-abc123"] = 1 /\
  exists name src dest,
    get_model_name Sample.llama3_manifest = Ok name /\
    dest <> NoEnt /\
    lookup (Sample.tree [Sample.llama3] [Sample.llama3_blob] [Sample.link_to_blob])
      (path_join (str (RAMALAMA_DIR Sample.HOME)) name) = Some (Link src dest).
Proof.
  destruct (sync_loop_success Sample.HOME [Sample.llama3_manifest]
              Sample.fs_llama3
              (Sample.tree [Sample.llama3] [Sample.llama3_blob] [Sample.link_to_blob])
              ["Model /home/u/.local/share/ramalama/models/ollama/llama3:latest symlinked to existing blob /home/u/.ollama/models/blobs/sha256-abc123"]
              eq_refl) as [Hlen Hall].
  split; [exact Hlen|]. apply Hall. now left.
Defined.

(** ** What a reset unlinks *)

Lemma reset_walk_entries (blobs_dir : string) (n : node) :
  forall top,
  entries (fst (reset_walk blobs_dir top n)) +
  List.length (filter (fun pc => points_into blobs_dir (snd pc)) (walk_files top n)) =
  entries n.
Proof.
  induction n as [c|target dest|es IH] using node_induction; intros top;
    [reflexivity|reflexivity|].
  cbn [reset_walk fst walk_files entries]. rewrite filter_app, length_app.
  induction IH as [|[name c] es Hc _ IHes]; [reflexivity|].
  cbn [flat_map filter map fst snd list_sum fold_right].
  rewrite map_app, list_sum_app, filter_app, length_app.
  specialize (Hc (path_join top name)). cbn [snd] in Hc.
  destruct (is_dir c) eqn:Ed; cbn [negb].
  - destruct (walked c) eqn:Ew; cbn [map list_sum fold_right fst snd filter List.length].
    + unfold list_sum in *; lia.
    + unfold list_sum in *; lia.
  - assert (Ew : walked c = false) by (unfold walked; now rewrite Ed).
    rewrite Ew. cbn [map filter fst snd List.length app].
    destruct (reset_entry blobs_dir (path_join top name) c) as [line|] eqn:Er.
    + destruct (points_into blobs_dir c) eqn:Ep.
      * destruct c as [x|source dest|es']; try discriminate Ep.
        cbn [map list_sum fold_right List.length entries]. unfold list_sum in *; lia.
      * apply (reset_entry_points_into blobs_dir (path_join top name)) in Ep.
        congruence.
    + apply reset_entry_points_into in Er. rewrite Er.
      cbn [map list_sum fold_right List.length fst snd]. unfold list_sum in *; lia.
Qed.

Lemma update_where_entries (f : node -> node * list string) (where_ : string)
    (k : node -> nat) :
  (forall n, entries (fst (f n)) + k n = entries n) ->
  forall n cur n' out,
  update_where (fun c _ => String.eqb c where_) f cur n = Some (n', out) ->
  exists n0, lookup_from cur n where_ = Some n0 /\ entries n' + k n0 = entries n.
Proof.
  intros Hf.
  assert (Hhere : forall n n' out,
            Some (f n) = Some (n', out) ->
            exists n0, Some n = Some n0 /\ entries n' + k n0 = entries n).
  { intros n n' out [= H]. exists n. split; [reflexivity|].
    replace n' with (fst (f n)) by now rewrite H. apply Hf. }
  induction n as [c|target dest|es IH] using node_induction;
    intros cur n' out Hu; cbn [update_where lookup_from] in *;
    destruct (String.eqb cur where_) eqn:Ew;
    try (now apply (Hhere _ _ out)); try discriminate Hu.
  destruct (update_first _ es) as [[es' out']|] eqn:Eu; [|discriminate Hu].
  injection Hu as <- _. clear Ew.
  revert es' out' Eu. induction IH as [|[name c] es Hc _ IHes]; intros es' out' Eu;
    [discriminate Eu|].
  cbn [update_first find_map fst snd] in *.
  pose proof (update_where_path f where_ c (path_join cur name)) as Hpath.
  destruct (update_where (fun c0 _ => String.eqb c0 where_) f (path_join cur name) c)
    as [[c' outc]|] eqn:Ec.
  - injection Eu as <- _.
    destruct (Hc _ _ _ Ec) as (n0 & Hl & He). rewrite Hl.
    exists n0. split; [reflexivity|]. cbn [entries map list_sum fold_right fst snd] in *. unfold list_sum in *; lia.
  - destruct (lookup_from (path_join cur name) c where_) as [x|].
    + destruct Hpath as (y & Hy & _). discriminate Hy.
    + destruct (update_first _ es) as [[r' outr]|] eqn:Er; [|discriminate Eu].
      injection Eu as <- _.
      destruct (IHes r' outr eq_refl) as (n0 & Hl & He).
      exists n0. split; [exact Hl|]. cbn [entries map list_sum fold_right fst snd] in *. unfold list_sum in *; lia.
Qed.

Lemma reset_symlinks_entries (fs : node) (directory blobs_dir : Path) :
  entries (fst (reset_symlinks fs directory blobs_dir)) +
  List.length (filter (fun pc => points_into (str blobs_dir) (snd pc))
                 (os_walk_files fs (str directory))) =
  entries fs.
Proof.
  unfold reset_symlinks, update_at, os_walk_files, lookup.
  pose proof (update_where_path (reset_walk (str blobs_dir) (str directory))
                (str directory) fs "/") as Hpath.
  destruct (update_where _ _ "/" fs) as [[fs' out]|] eqn:Eu.
  - destruct (update_where_entries
                (reset_walk (str blobs_dir) (str directory)) (str directory)
                (fun n => List.length
                            (filter (fun pc => points_into (str blobs_dir) (snd pc))
                               (walk_files (str directory) n)))
                (fun n => reset_walk_entries (str blobs_dir) n (str directory))
                fs "/" fs' out Eu) as (n0 & Hl & He).
    rewrite Hl. exact He.
  - destruct (lookup_from "/" fs (str directory)) as [x|].
    + destruct Hpath as (y & Hy & _). discriminate Hy.
    + cbn. lia.
Qed.

(** X17. What a reset unlinks: the files that the walk of the target
    directory lists after the reset are those that it listed before that
    are no link into the blob store, in the same order; such a link is
    no longer listed, a regular file and a link that points elsewhere
    still are; and the tree has lost as many entries as the walk listed
    links into the blob store, so that these are removed, not
    replaced. *)
Theorem reset_symlinks_unlinks_links_into_store
    (fs : node) (directory blobs_dir : Path) :
  let fs' := fst (reset_symlinks fs directory blobs_dir) in
  os_walk_files fs' (str directory) =
    filter (fun pc => negb (points_into (str blobs_dir) (snd pc)))
           (os_walk_files fs (str directory)) /\
  (forall p c, In (p, c) (os_walk_files fs (str directory)) ->
     (~ In (p, c) (os_walk_files fs' (str directory)) <->
      exists source dest,
        c = Link source dest /\ startswith source (str blobs_dir) = true)) /\
  (forall p x, In (p, File x) (os_walk_files fs (str directory)) ->
     In (p, File x) (os_walk_files fs' (str directory))) /\
  entries fs' +
  List.length (filter (fun pc => points_into (str blobs_dir) (snd pc))
                 (os_walk_files fs (str directory))) =
  entries fs.
Proof.
  cbv zeta. split; [apply os_walk_files_reset|]. split; [|split].
  - rewrite os_walk_files_reset.
    intros p c Hin. rewrite filter_In. cbn [snd]. split.
    + intros H. destruct c as [x|source dest|es].
      * exfalso. apply H. now split.
      * exists source, dest. split; [reflexivity|].
        destruct (startswith source (str blobs_dir)) eqn:E; [reflexivity|].
        exfalso. apply H. split; [exact Hin|]. cbn. now rewrite E.
      * exfalso. apply H. now split.
    + intros (source & dest & -> & Hs) [_ H]. cbn in H. now rewrite Hs in H.
  - rewrite os_walk_files_reset. intros p x Hin. apply filter_In. now split.
  - apply reset_symlinks_entries.
Qed.

Lemma reset_symlinks_unlinks_links_into_store_witness :
  let fs' := fst (reset_symlinks Sample.fs_two_links
                    (RAMALAMA_DIR Sample.HOME) (OLLAMA_BLOBS_DIR Sample.HOME)) in
  listdir Sample.fs_two_links Sample.ramalama_dir =
    [Sample.link_to_blob; Sample.link_elsewhere; Sample.notes] /\
  listdir fs' Sample.ramalama_dir = [Sample.link_elsewhere; Sample.notes] /\
  ~ In ("/home/u/.local/share/ramalama/models/ollama/llama3:latest",
        snd Sample.link_to_blob) (os_walk_files fs' Sample.ramalama_dir) /\
  In ("/home/u/.local/share/ramalama/models/ollama/README", snd Sample.notes)
     (os_walk_files fs' Sample.ramalama_dir) /\
  entries fs' + 1 = entries Sample.fs_two_links.
Proof.
  pose proof (reset_symlinks_unlinks_links_into_store Sample.fs_two_links
                (RAMALAMA_DIR Sample.HOME) (OLLAMA_BLOBS_DIR Sample.HOME))
    as (_ & Hlink & Hfile & Hcount).
  cbv zeta. split; [reflexivity|]. split; [reflexivity|]. split; [|split].
  - apply Hlink.
    + vm_compute. now left.
    + exists "/home/u/.ollama/models/blobs/sha256-abc123", (IsFile Sample.blob_content).
      split; reflexivity.
  - apply Hfile. vm_compute. right. right. now left.
  - exact Hcount.
Defined.
